(** * KYC engine (hf_kyc_space/app.py): a shallow embedding and its properties

    The program is a Flask application with two helpers, [decode_image] and
    [crop_card], and three POST handlers, [verify_cnic], [face_verify] and
    [shop_verify].  Everything it computes itself (string splitting, the
    largest-box scan, the clamped margin, slicing, truthiness tests, the
    confidence filter, de-duplication, the [try]/[except] structure) is
    embedded below as executable definitions.  The third-party routines it
    calls (base64, OpenCV, YOLO, EasyOCR, DeepFace) are the fields of an
    environment record, and every call to one of them is recorded in a call
    log, so that "the handler does not invoke the model" is a statement
    about that log. *)

From Stdlib Require Import ZArith QArith Lia Ascii.
From stdpp Require Import gmap strings list fin_maps pretty.

#[local] Set Warnings "-register-all".
#[local] Open Scope Z_scope.

(** ** Numbers

    Box coordinates, class ids and confidences come out of the detector as
    floating-point scalars.  The program only subtracts, multiplies and
    compares them, and truncates them with [int(...)]; the embedding is
    written against exactly these operations.  The laws used in the proofs
    are that [>] is transitive and irreflexive, which comparison of
    floating-point values satisfies. *)

Class Numeric (F : Type) := {
  fsub : F → F → F;
  fmul : F → F → F;
  fgt : F → F → bool;
  f_zero : F;                     (* the literal [0] *)
  f_0_4 : F;                      (* the literal [0.4] *)
  f_int : F → Z;                  (* [int(x)]: truncation towards zero *)
  fgt_trans : ∀ a b c, fgt a b = true → fgt b c = true → fgt a c = true;
  fgt_irrefl : ∀ a, fgt a a = false
}.

(** ** Python values, exceptions, outcomes *)

Inductive PyVal : Type :=
  | PNone
  | PBool (b : bool)
  | PInt (z : Z)
  | PFloat (q : Q)
  | PStr (s : string)
  | PBytes (b : list Byte.byte)
  | PList (l : list PyVal)
  | PDict (d : gmap string PyVal).

Inductive ExnClass :=
  | ValueError | TypeError | AttributeError | IndexError | KeyError
  | BinasciiError | Cv2Error | HTTPException | RuntimeError.

(** An exception derived from [Exception]; [exn_str e] is [str(e)]. *)
Record Exn := mkExn { exn_class : ExnClass; exn_str : string }.

Inductive Outcome (A : Type) :=
  | Returns (a : A)
  | Raises (e : Exn).
Arguments Returns {A} a.
Arguments Raises {A} e.

(** [bool(v)] as used by [if not v]. *)
Definition truthy (v : PyVal) : bool :=
  match v with
  | PNone => false
  | PBool b => b
  | PInt z => negb (z =? 0)
  | PFloat q => negb (Qeq_bool q 0)
  | PStr s => negb (String.eqb s "")
  | PBytes b => match b with [] => false | _ => true end
  | PList l => match l with [] => false | _ => true end
  | PDict d => negb (bool_decide (d = ∅))
  end.

Definition type_name (v : PyVal) : string :=
  match v with
  | PNone => "NoneType"
  | PBool _ => "bool"
  | PInt _ => "int"
  | PFloat _ => "float"
  | PStr _ => "str"
  | PBytes _ => "bytes"
  | PList _ => "list"
  | PDict _ => "dict"
  end.

(** ** Strings: [sep in s] and [s.split(sep)] for a one-character [sep] *)

Fixpoint str_contains (sep : ascii) (s : string) : bool :=
  match s with
  | EmptyString => false
  | String c rest => if Ascii.eqb c sep then true else str_contains sep rest
  end.

Fixpoint str_split (sep : ascii) (s : string) : list string :=
  match s with
  | EmptyString => [EmptyString]
  | String c rest =>
      if Ascii.eqb c sep then EmptyString :: str_split sep rest
      else match str_split sep rest with
           | piece :: pieces => String c piece :: pieces
           | [] => [String c EmptyString]
           end
  end.

(** ** Pixel grids and slicing *)

Definition Pixel : Type := Byte.byte * Byte.byte * Byte.byte.

(** An [ndarray] of shape [(shape_h, shape_w, 3)]. *)
Record PixelGrid := mkGrid {
  shape_h : nat;
  shape_w : nat;
  pixels : list (list Pixel)
}.

Definition grid_ok (g : PixelGrid) : Prop :=
  length (pixels g) = shape_h g ∧ Forall (λ row, length row = shape_w g) (pixels g).

(** The bound [i] of a slice [a:b] over an axis of length [n], as Python
    normalises it: a negative bound counts from the end, and every bound is
    clipped to [[0, n]]. *)
Definition slice_bound (n : nat) (i : Z) : nat :=
  let n := Z.of_nat n in
  Z.to_nat (if i <? 0 then Z.max (i + n) 0 else Z.min i n).

Definition slice_len (n : nat) (a b : Z) : nat :=
  (slice_bound n b - slice_bound n a)%nat.

Definition slice {A} (l : list A) (a b : Z) : list A :=
  take (slice_len (length l) a b) (drop (slice_bound (length l) a) l).

(** [image[y1:y2, x1:x2]] *)
Definition subgrid (image : PixelGrid) (y1 y2 x1 x2 : Z) : PixelGrid :=
  {| shape_h := slice_len (shape_h image) y1 y2;
     shape_w := slice_len (shape_w image) x1 x2;
     pixels := (λ row, take (slice_len (shape_w image) x1 x2)
                            (drop (slice_bound (shape_w image) x1) row))
               <$> take (slice_len (shape_h image) y1 y2)
                        (drop (slice_bound (shape_h image) y1) (pixels image)) |}.

(** ** Detector and verifier results *)

Record Box (F : Type) := mkBox {
  xyxy : F * F * F * F;           (* [box.xyxy[0]] *)
  cls : F;                        (* [box.cls[0]] *)
  conf : F                        (* [box.conf[0]] *)
}.
Arguments mkBox {F}.
Arguments xyxy {F}.
Arguments cls {F}.
Arguments conf {F}.

Record Results (F : Type) := mkResults { boxes : list (Box F) }.
Arguments mkResults {F}.
Arguments boxes {F}.

Record FaceResult (F : Type) := mkFace {
  verified : bool;
  distance : F;
  threshold : F
}.
Arguments mkFace {F}.
Arguments verified {F}.
Arguments distance {F}.
Arguments threshold {F}.

(** ** Calls to third-party code, and the monad that records them *)

Inductive Call :=
  | Call_b64decode (s : string)
  | Call_imdecode (buf : list Byte.byte)
  | Call_yolo_model (image : option PixelGrid)
  | Call_readtext (image : option PixelGrid)
  | Call_DeepFace_verify (img1 img2 : option PixelGrid).

(** A computation takes the log of calls made so far and gives an outcome
    and the extended log.  Calls made before an exception stay in the log. *)
Definition M (A : Type) : Type := list Call → Outcome A * list Call.

Definition ret {A} (a : A) : M A := λ log, (Returns a, log).
Definition raise {A} (e : Exn) : M A := λ log, (Raises e, log).
Definition bind {A B} (c : M A) (k : A → M B) : M B :=
  λ log, match c log with
         | (Returns a, log') => k a log'
         | (Raises e, log') => (Raises e, log')
         end.
Definition lift {A} (o : Outcome A) : M A := λ log, (o, log).
Definition call {A} (c : Call) (o : Outcome A) : M A := λ log, (o, log ++ [c]).

(** [try: body except Exception as e: handler(e)] *)
Definition try_except {A} (body : M A) (handler : Exn → M A) : M A :=
  λ log, match body log with
         | (Returns a, log') => (Returns a, log')
         | (Raises e, log') => handler e log'
         end.

Notation "'let*' x ':=' c 'in' k" := (bind c (λ x, k))
  (at level 10, x pattern, c at level 100, k at level 200).

Fixpoint foldM {A B} (f : A → B → M A) (l : list B) (a : A) : M A :=
  match l with
  | [] => ret a
  | x :: l' => let* a' := f a x in foldM f l' a'
  end.

(** The environment: the third-party routines and the loaded models. *)
Record Env (F : Type) := mkEnv {
  b64decode : string → Outcome (list Byte.byte);       (* base64.b64decode *)
  imdecode : list Byte.byte → Outcome (option PixelGrid);
                                        (* cv2.imdecode(_, cv2.IMREAD_COLOR) *)
  yolo_model : option PixelGrid → Outcome (list (Results F));
  yolo_names : gmap Z string;                          (* yolo_model.names *)
  readtext : option PixelGrid → Outcome (list string); (* reader.readtext(_, detail=0) *)
  DeepFace_verify : option PixelGrid → option PixelGrid → Outcome (FaceResult F)
}.
Arguments mkEnv {F}.
Arguments b64decode {F}.
Arguments imdecode {F}.
Arguments yolo_model {F}.
Arguments yolo_names {F}.
Arguments readtext {F}.
Arguments DeepFace_verify {F}.

(** ** Requests and responses *)

(** [request_json] is what evaluating [request.json] does: the parsed body,
    or the exception Flask raises for a body that is not JSON. *)
Record Request := mkRequest { request_json : Outcome PyVal }.

(** The payloads the handlers pass to [jsonify]. *)
Inductive Payload (F : Type) :=
  | PlainText (s : string)
  | RawText (raw_text : list string)
  | FaceVerdict (verified : bool) (distance threshold : F)
  | ShopReport (detected_objects : list string) (text_content : list string)
  | ErrorMsg (error : string).
Arguments PlainText {F}.
Arguments RawText {F}.
Arguments FaceVerdict {F}.
Arguments ShopReport {F}.
Arguments ErrorMsg {F}.

Definition Response (F : Type) : Type := Payload F * Z.

Definition status {F} (r : Response F) : Z := snd r.
Definition is_client_error (code : Z) : Prop := 400 ≤ code < 500.
Definition is_server_error (code : Z) : Prop := 500 ≤ code < 600.

(** ** The program *)

Section Program.
Context {F : Type} `{!Numeric F}.
Variable E : Env F.

(** *** Helper functions *)

(** Lines 38-39 of [decode_image]: a string containing a comma is replaced
    by element 1 of its split at commas. *)
Definition strip_data_uri (image_input : PyVal) : M PyVal :=
  match image_input with
  | PStr s =>
      if str_contains "," s then
        match str_split "," s !! 1%nat with
        | Some piece => ret (PStr piece)
        | None => raise (mkExn IndexError "list index out of range")
        end
      else ret image_input
  | _ => ret image_input
  end.

(** [np.frombuffer(img_bytes, dtype=np.uint8)] *)
Definition np_frombuffer (img_bytes : PyVal) : M (list Byte.byte) :=
  match img_bytes with
  | PBytes b => ret b
  | v => raise (mkExn TypeError
                  ("a bytes-like object is required, not '" +:+ type_name v +:+ "'"))
  end.

Definition decode_image (image_input : PyVal) : M (option PixelGrid) :=
  try_except
    (let* image_input := strip_data_uri image_input in
     let* img_bytes :=
       match image_input with
       | PStr s => let* b := call (Call_b64decode s) (b64decode E s) in ret (PBytes b)
       | _ => ret image_input
       end in
     let* img_arr := np_frombuffer img_bytes in
     let* img := call (Call_imdecode img_arr) (imdecode E img_arr) in
     ret img)
    (λ e, raise (mkExn ValueError ("Invalid image input: " +:+ exn_str e))).

Definition box_area (box : Box F) : F :=
  let '(x1, y1, x2, y2) := xyxy box in
  fmul (fsub x2 x1) (fsub y2 y1).

(** The body of the inner loop of [crop_card], on the pair
    [(best_box, max_area)]. *)
Definition scan_box (st : option (Z * Z * Z * Z) * F) (box : Box F)
  : option (Z * Z * Z * Z) * F :=
  let '(best_box, max_area) := st in
  let '(x1, y1, x2, y2) := xyxy box in
  let area := fmul (fsub x2 x1) (fsub y2 y1) in
  if fgt area max_area then (Some (f_int x1, f_int y1, f_int x2, f_int y2), area)
  else (best_box, max_area).

(** Both loops of [crop_card], started from [best_box = None], [max_area = 0]. *)
Definition scan_results (results : list (Results F)) : option (Z * Z * Z * Z) * F :=
  fold_left (λ st r, fold_left scan_box (boxes r) st) results (None, f_zero).

(** [image.shape], which a [None] image does not have. *)
Definition image_shape (image : option PixelGrid) : M (PixelGrid * nat * nat) :=
  match image with
  | Some g => ret (g, shape_h g, shape_w g)
  | None => raise (mkExn AttributeError "'NoneType' object has no attribute 'shape'")
  end.

Definition crop_card (image : option PixelGrid) : M (option PixelGrid) :=
  let* results := call (Call_yolo_model image) (yolo_model E image) in
  match fst (scan_results results) with
  | Some (x1, y1, x2, y2) =>
      let* (g, h, w) := image_shape image in
      let x1 := Z.max 0 (x1 - 10) in
      let y1 := Z.max 0 (y1 - 10) in
      let x2 := Z.min (Z.of_nat w) (x2 + 10) in
      let y2 := Z.min (Z.of_nat h) (y2 + 10) in
      ret (Some (subgrid g y1 y2 x1 x2))
  | None => ret image
  end.

(** *** Endpoints *)

Definition health : Response F := (PlainText "KYC Engine is Running", 200).

(** [data.get(key)] *)
Definition py_get (data : PyVal) (key : string) : M PyVal :=
  match data with
  | PDict d => ret (default PNone (d !! key))
  | v => raise (mkExn AttributeError
                  ("'" +:+ type_name v +:+ "' object has no attribute 'get'"))
  end.

(** The [except Exception as e] clause shared by the three handlers. *)
Definition error_500 (e : Exn) : M (Response F) := ret (ErrorMsg (exn_str e), 500).

Definition verify_cnic_body (request : Request) : M (Response F) :=
  let* data := lift (request_json request) in
  let* image_data := py_get data "image" in
  if negb (truthy image_data) then ret (ErrorMsg "No image provided", 400)
  else
    let* img := decode_image image_data in
    let* cropped := crop_card img in
    let* text_results := call (Call_readtext cropped) (readtext E cropped) in
    ret (RawText text_results, 200).

Definition verify_cnic (request : Request) : M (Response F) :=
  try_except (verify_cnic_body request) error_500.

Definition face_verify_body (request : Request) : M (Response F) :=
  let* data := lift (request_json request) in
  let* img1_data := py_get data "image1" in
  let* img2_data := py_get data "image2" in
  if negb (truthy img1_data) || negb (truthy img2_data)
  then ret (ErrorMsg "image1 and image2 required", 400)
  else
    let* img1 := decode_image img1_data in
    let* img2 := decode_image img2_data in
    let* result := call (Call_DeepFace_verify img1 img2) (DeepFace_verify E img1 img2) in
    ret (FaceVerdict (verified result) (distance result) (threshold result), 200).

Definition face_verify (request : Request) : M (Response F) :=
  try_except (face_verify_body request) error_500.

(** The body of the inner loop of [shop_verify]. *)
Definition tag_box (detected_objects : list string) (box : Box F) : Outcome (list string) :=
  let cls_id := f_int (cls box) in
  match yolo_names E !! cls_id with
  | None => Raises (mkExn KeyError (pretty cls_id))
  | Some cls_name =>
      if fgt (conf box) f_0_4 then Returns (detected_objects ++ [cls_name])
      else Returns detected_objects
  end.

(** Both loops of [shop_verify], started from [detected_objects = []]. *)
Definition tag_results (results : list (Results F)) : M (list string) :=
  foldM (λ acc r, foldM (λ acc box, lift (tag_box acc box)) (boxes r) acc) results [].

(** [list(set(detected_objects))] *)
Definition list_set (detected_objects : list string) : list string :=
  elements (list_to_set detected_objects : gset string).

Definition shop_verify_body (request : Request) : M (Response F) :=
  let* data := lift (request_json request) in
  let* image_data := py_get data "image" in
  if negb (truthy image_data) then ret (ErrorMsg "No image provided", 400)
  else
    let* img := decode_image image_data in
    let* results := call (Call_yolo_model img) (yolo_model E img) in
    let* detected_objects := tag_results results in
    let* ocr_text := call (Call_readtext img) (readtext E img) in
    ret (ShopReport (list_set detected_objects) ocr_text, 200).

Definition shop_verify (request : Request) : M (Response F) :=
  try_except (shop_verify_body request) error_500.

End Program.

(** ** A concrete instance: the program's floating-point numbers

    Finite floating-point values are rationals.  Box coordinates and their
    differences and products are [numpy.float32] scalars, so [fsub] and
    [fmul] round the exact result to binary32 (24 significant bits, to
    nearest, ties to even, gradual underflow; results beyond the largest
    finite binary32 value are left as they are, the model has no infinity).
    A confidence is [float(box.conf[0])], a binary32 value widened without
    change, and it is compared with the literal [0.4], which is the binary64
    number nearest to 0.4.  Comparison and [int(...)] are exact. *)

(** The value [m * 2^e]. *)
Definition float_value (m e : Z) : Q :=
  if 0 <=? e then inject_Z (m * 2 ^ e) else (m # Z.to_pos (2 ^ (- e)))%Q.


(** [n / d] rounded to the nearest integer, ties to the even one ([0 < d]). *)
Definition round_half_even (n d : Z) : Z :=
  let q := n / d in
  let r := n mod d in
  if 2 * r <? d then q
  else if d <? 2 * r then q + 1
  else if Z.even q then q else q + 1.

(** The fraction [n / d] divided by [2^e], as a fraction. *)
Definition scale2 (n d e : Z) : Z * Z :=
  if 0 <=? e then (n, d * 2 ^ e) else (n * 2 ^ (- e), d).

(** The exponent [e] of the binary32 number nearest to [q]: the one with
    [2^23 <= |q| / 2^e < 2^24], and -149 for a subnormal result. *)
Definition float32_exponent (q : Q) : Z :=
  let n := Z.abs (Qnum q) in
  let d := Z.pos (Qden q) in
  let k := Z.log2 n - Z.log2 d in
  let '(n', d') := scale2 n d k in
  let floor_log2 := if d' <=? n' then k else k - 1 in
  Z.max (floor_log2 - 23) (-149).

Definition round32 (q : Q) : Q :=
  if Qnum q =? 0 then 0%Q
  else
    let e := float32_exponent q in
    let '(n', d') := scale2 (Qnum q) (Z.pos (Qden q)) e in
    float_value (round_half_even n' d') e.

(** The literal [0.4]: the binary64 number [3602879701896397 / 2^53]. *)
Definition double_0_4 : Q := (3602879701896397 # 9007199254740992)%Q.

Definition Qgt_bool (a b : Q) : bool := negb (Qle_bool a b).

#[export, refine] Instance Numeric_Q : Numeric Q := {|
  fsub := λ a b, round32 (a - b);
  fmul := λ a b, round32 (a * b);
  fgt := Qgt_bool;
  f_zero := 0%Q;
  f_0_4 := double_0_4;
  f_int := λ q, Z.quot (Qnum q) (Z.pos (Qden q))
|}.
Proof.
  - intros a b c. unfold Qgt_bool.
    rewrite !negb_true_iff, <- !not_true_iff_false, !Qle_bool_iff.
    intros Hab Hbc Hac. apply Hab.
    apply Qle_trans with c; [exact Hac|].
    apply Qlt_le_weak, Qnot_le_lt, Hbc.
  - intros a. unfold Qgt_bool.
    rewrite negb_false_iff, Qle_bool_iff. apply Qle_refl.
Defined.

Module Sample.

Definition byte_of_N (n : N) : Byte.byte :=
  default Byte.x00 (Byte.of_N (n mod 256)%N).

Definition b64_sextet (c : ascii) : option N :=
  let n := N_of_ascii c in
  (if (65 <=? n) && (n <=? 90) then Some (n - 65)
   else if (97 <=? n) && (n <=? 122) then Some (n - 71)
   else if (48 <=? n) && (n <=? 57) then Some (n + 4)
   else if n =? 43 then Some 62
   else if n =? 47 then Some 63
   else None)%N.

Fixpoint sextets_to_bytes (l : list N) : list Byte.byte :=
  match l with
  | a :: b :: c :: d :: rest =>
      byte_of_N (a * 4 + b / 16) :: byte_of_N ((b mod 16) * 16 + c / 4)
        :: byte_of_N ((c mod 4) * 64 + d) :: sextets_to_bytes rest
  | [a; b; c] => [byte_of_N (a * 4 + b / 16); byte_of_N ((b mod 16) * 16 + c / 4)]
  | [a; b] => [byte_of_N (a * 4 + b / 16)]
  | _ => []
  end%N.

(** A base64 decoder in the manner of [base64.b64decode(s)] without
    validation: characters outside the alphabet are dropped, and a count of
    data characters that the padding does not complete is an error. *)
Definition b64decode (s : string) : Outcome (list Byte.byte) :=
  let chars := String.list_ascii_of_string s in
  let data := omap b64_sextet chars in
  let pads := length (filter (λ c, c = "="%char) chars) in
  match (length data mod 4)%nat with
  | 0%nat => Returns (sextets_to_bytes data)
  | 1%nat => Raises (mkExn BinasciiError "Invalid base64-encoded string")
  | 2%nat => if (2 <=? pads)%nat then Returns (sextets_to_bytes data)
             else Raises (mkExn BinasciiError "Incorrect padding")
  | _ => if (1 <=? pads)%nat then Returns (sextets_to_bytes data)
         else Raises (mkExn BinasciiError "Incorrect padding")
  end.

Fixpoint bgr_pixels (buf : list Byte.byte) : list Pixel :=
  match buf with
  | b :: g :: r :: rest => (b, g, r) :: bgr_pixels rest
  | _ => []
  end.

Fixpoint rows_of {A} (w h : nat) (l : list A) : list (list A) :=
  match h with
  | O => []
  | S h' => take w l :: rows_of w h' (drop w l)
  end.

(** A decoder for one uncompressed container: the byte [0x49], the height,
    the width, then [3 * height * width] channel bytes.  Like
    [cv2.imdecode] it raises on an empty buffer and answers [None] for any
    other buffer it cannot decode. *)
Definition imdecode (buf : list Byte.byte) : Outcome (option PixelGrid) :=
  match buf with
  | [] => Raises (mkExn Cv2Error "(-215:Assertion failed) !buf.empty() in function 'imdecode_'")
  | magic :: hb :: wb :: payload =>
      let h := N.to_nat (Byte.to_N hb) in
      let w := N.to_nat (Byte.to_N wb) in
      if Byte.eqb magic Byte.x49 && (0 <? h)%nat && (0 <? w)%nat
         && (length payload =? 3 * h * w)%nat
      then Returns (Some (mkGrid h w (rows_of w h (bgr_pixels payload))))
      else Returns None
  | _ => Returns None
  end.

Definition names : gmap Z string :=
  list_to_map [(0, "person"); (1, "bicycle"); (2, "car"); (73, "book")].

Definition readtext (image : option PixelGrid) : Outcome (list string) :=
  match image with
  | Some _ => Returns ["PAKISTAN"; "National Identity Card"]
  | None => Raises (mkExn ValueError "Invalid input type")
  end.

Definition DeepFace_verify (img1 img2 : option PixelGrid) : Outcome (FaceResult Q) :=
  Returns (mkFace true (1 # 4)%Q (17 # 25)%Q).

(** The environment whose detector answers [results] for every image. *)
Definition env (results : list (Results Q)) : Env Q :=
  mkEnv b64decode imdecode (λ _, Returns results) names readtext DeepFace_verify.


(** The ASCII bytes of "hello", and their base64 text. *)
Definition hello : list Byte.byte := [Byte.x68; Byte.x65; Byte.x6c; Byte.x6c; Byte.x6f].
Definition hello_b64 : string := "aGVsbG8=".

(** The base64 text of a 1 x 1 image in the container of [imdecode]. *)
Definition pixel_b64 : string := "SQEBECAw".
Definition pixel_image : PixelGrid := mkGrid 1 1 [[(Byte.x10, Byte.x20, Byte.x30)]].

Definition box (x1 y1 x2 y2 : Z) (c : Z) (p : Q) : Box Q :=
  mkBox (inject_Z x1, inject_Z y1, inject_Z x2, inject_Z y2) (inject_Z c) p.

(** A 40 x 50 image whose pixel at row [y], column [x] is [(y, x, 0)]. *)
Definition image : PixelGrid :=
  mkGrid 40 50
    ((λ y, (λ x, (byte_of_N (N.of_nat y), byte_of_N (N.of_nat x), Byte.x00)) <$> seq 0 50)
       <$> seq 0 40).


Definition post (fields : list (string * PyVal)) : Request :=
  mkRequest (Returns (PDict (list_to_map fields))).

End Sample.


(** ** Definitions used to state the properties *)

(** Every box the detector returned, in the order the loops visit them. *)
Definition all_boxes {F} (results : list (Results F)) : list (Box F) :=
  concat (boxes <$> results).

(** [best_box] as the loop builds it from a box. *)
Definition box_ints {F} `{!Numeric F} (box : Box F) : Z * Z * Z * Z :=
  let '(x1, y1, x2, y2) := xyxy box in (f_int x1, f_int y1, f_int x2, f_int y2).

(** The label a box contributes to [detected_objects], if any. *)
Definition box_label {F} `{!Numeric F} (E : Env F) (box : Box F) : option string :=
  if fgt (conf box) f_0_4 then yolo_names E !! f_int (cls box) else None.

(** The substring after the first occurrence of [sep], in the words of the
    interface description of the decoder. *)
Fixpoint after_first (sep : ascii) (s : string) : string :=
  match s with
  | EmptyString => EmptyString
  | String c rest => if Ascii.eqb c sep then rest else after_first sep rest
  end.


(** Which third-party routine a logged call went to. *)
Definition is_decoder_call (c : Call) : bool :=
  match c with Call_b64decode _ | Call_imdecode _ => true | _ => false end.
Definition is_detector_call (c : Call) : bool :=
  match c with Call_yolo_model _ => true | _ => false end.
Definition is_reader_call (c : Call) : bool :=
  match c with Call_readtext _ => true | _ => false end.
Definition is_face_call (c : Call) : bool :=
  match c with Call_DeepFace_verify _ _ => true | _ => false end.

(** A computation only adds calls satisfying [P] to the log, whatever its
    outcome. *)
Definition calls_only {A} (P : Call → bool) (c : M A) : Prop :=
  ∀ log, ∃ calls, (c log).2 = log ++ calls ∧ forallb P calls = true.

(** The pixel at row [i], column [j] of a grid. *)
Definition pixel_at (g : PixelGrid) (i j : nat) : option Pixel :=
  pixels g !! i ≫= (λ row, row !! j).

(** ** Strings *)

Example str_split_like_python :
  str_split "," "a,b,c" = ["a"; "b"; "c"] ∧
  str_split "," ",a" = [""; "a"] ∧
  str_split "," "a," = ["a"; ""] ∧
  str_split "," "" = [""] ∧
  str_split "," "abc" = ["abc"].
Proof. split_and!; reflexivity. Qed.

Example int_truncates_towards_zero :
  f_int (7 # 2)%Q = 3 ∧ f_int (-7 # 2)%Q = -3 ∧ f_int (5 # 1)%Q = 5.
Proof. split_and!; reflexivity. Qed.

Example round32_like_float32 :
  (round32 (16785409 # 1) == 16785408)%Q ∧
  (round32 (16785411 # 1) == 16785412)%Q ∧
  (round32 (2 # 5) == float_value 13421773 (-25))%Q ∧
  (round32 (1 # 10) == float_value 13421773 (-27))%Q ∧
  (round32 (-7 # 2) == -7 # 2)%Q ∧
  (round32 (1 # 2 ^ 150) == 0)%Q ∧
  (round32 (3 # 2 ^ 150) == float_value 2 (-149))%Q.
Proof. split_and!; vm_compute; reflexivity. Qed.

Example slice_like_python :
  slice [1; 2; 3; 4; 5] 1 3 = [2; 3] ∧
  slice [1; 2; 3; 4; 5] 0 10 = [1; 2; 3; 4; 5] ∧
  slice [1; 2; 3; 4; 5] 2 (-1) = [3; 4] ∧
  slice [1; 2; 3; 4; 5] 4 2 = [] ∧
  slice [1; 2; 3; 4; 5] 7 9 = [].
Proof. split_and!; reflexivity. Qed.

Section Strings.
Variable sep : ascii.

Lemma append_String (c : ascii) (s t : string) : String c s +:+ t = String c (s +:+ t).
Proof. reflexivity. Qed.

Lemma append_empty (s : string) : s +:+ EmptyString = s.
Proof.
  induction s as [|c s IH]; [done|].
  rewrite append_String. by rewrite IH.
Qed.

Lemma append_cancel (h a b : string) : a = b → h +:+ a = h +:+ b.
Proof. by intros ->. Qed.

Lemma str_split_no_sep (s : string) :
  str_contains sep s = false → str_split sep s = [s].
Proof.
  induction s as [|c s IH]; simpl; [done|].
  destruct (Ascii.eqb c sep); [done|]. intros H. by rewrite (IH H).
Qed.

(** The first piece of a split stops at the first separator, and the other
    pieces are the split of what follows it. *)
Lemma str_split_first (s : string) :
  ∃ piece tail,
    str_split sep s = piece :: tail ∧ str_contains sep piece = false ∧
    ((s = piece ∧ tail = []) ∨
     (∃ r, s = piece +:+ String sep r ∧ tail = str_split sep r)).
Proof.
  induction s as [|c s (piece & tail & Hsplit & Hpiece & Hs)]; simpl.
  - exists EmptyString, []. split_and!; [done|done|]. by left.
  - destruct (Ascii.eqb c sep) eqn:Hc.
    + apply Ascii.eqb_eq in Hc as ->.
      exists EmptyString, (str_split sep s). split_and!; [done|done|].
      right. by exists s.
    + rewrite Hsplit. exists (String c piece), tail. split_and!; [done|..].
      * simpl. by rewrite Hc.
      * destruct Hs as [[-> ->]|(r & -> & ->)]; [by left|].
        right. by exists r.
Qed.

Lemma str_contains_app_sep (a b : string) :
  str_contains sep (a +:+ String sep b) = true.
Proof.
  induction a as [|c a IH]; simpl.
  - by rewrite Ascii.eqb_refl.
  - by destruct (Ascii.eqb c sep).
Qed.

End Strings.

(** ** The monad *)

Lemma bind_returns {A B} (c : M A) (k : A → M B) (a : A) (log log' : list Call) :
  c log = (Returns a, log') → bind c k log = k a log'.
Proof. unfold bind. by intros ->. Qed.

Lemma bind_raises {A B} (c : M A) (k : A → M B) (e : Exn) (log log' : list Call) :
  c log = (Raises e, log') → bind c k log = (Raises e, log').
Proof. unfold bind. by intros ->. Qed.

Lemma try_except_returns {A} (body : M A) (h : Exn → M A) (a : A) (log log' : list Call) :
  body log = (Returns a, log') → try_except body h log = (Returns a, log').
Proof. unfold try_except. by intros ->. Qed.

Lemma try_except_raises {A} (body : M A) (h : Exn → M A) (e : Exn) (log log' : list Call) :
  body log = (Raises e, log') → try_except body h log = h e log'.
Proof. unfold try_except. by intros ->. Qed.


Ltac run_monad :=
  unfold try_except, bind, ret, raise, lift, call; simpl.

(** ** The image decoder *)

Section Decoder.
Context {F : Type} `{!Numeric F}.
Variable E : Env F.

Lemma strip_data_uri_no_comma (s : string) (log : list Call) :
  str_contains "," s = false →
  strip_data_uri (PStr s) log = (Returns (PStr s), log).
Proof. unfold strip_data_uri. by intros ->. Qed.

(** With a comma in the string, the piece kept is the one between the first
    comma and the next. *)
Lemma strip_data_uri_comma (s : string) :
  str_contains "," s = true →
  ∃ header payload rest,
    s = header +:+ "," +:+ payload +:+ rest ∧
    str_contains "," header = false ∧
    str_contains "," payload = false ∧
    (rest = EmptyString ∨ ∃ r, rest = String "," r) ∧
    ∀ log, strip_data_uri (PStr s) log = (Returns (PStr payload), log).
Proof.
  intros Hs.
  destruct (str_split_first "," s) as (header & tail & Hsplit & Hheader & Hcase).
  destruct Hcase as [[-> ->]|(r & -> & ->)]; [congruence|].
  destruct (str_split_first "," r) as (payload & tail & Hsplit' & Hpayload & Hcase).
  assert (Hstrip : ∀ log, strip_data_uri (PStr (header +:+ String "," r)) log
                          = (Returns (PStr payload), log)).
  { intros log. unfold strip_data_uri. by rewrite Hs, Hsplit, Hsplit'. }
  destruct Hcase as [[-> ->]|(r' & -> & ->)].
  - exists header, payload, EmptyString. split_and!; [|done|done|by left|done].
    apply append_cancel. simpl. by rewrite append_empty.
  - exists header, payload, (String "," r'). split_and!; [|done|done|by eauto|done].
    by apply append_cancel.
Qed.

(** What [decode_image] does once the string, if any, has been reduced to
    its payload. *)
Lemma decode_image_bytes (buf : list Byte.byte) (log : list Call) :
  decode_image E (PBytes buf) log =
    match imdecode E buf with
    | Returns img => (Returns img, log ++ [Call_imdecode buf])
    | Raises e => (Raises (mkExn ValueError ("Invalid image input: " +:+ exn_str e)),
                   log ++ [Call_imdecode buf])
    end.
Proof.
  unfold decode_image, np_frombuffer. run_monad. by destruct (imdecode E buf).
Qed.

Lemma decode_image_str (s : string) (log : list Call) :
  str_contains "," s = false →
  decode_image E (PStr s) log =
    match b64decode E s with
    | Returns buf =>
        match imdecode E buf with
        | Returns img => (Returns img, log ++ [Call_b64decode s] ++ [Call_imdecode buf])
        | Raises e => (Raises (mkExn ValueError ("Invalid image input: " +:+ exn_str e)),
                       log ++ [Call_b64decode s] ++ [Call_imdecode buf])
        end
    | Raises e => (Raises (mkExn ValueError ("Invalid image input: " +:+ exn_str e)),
                   log ++ [Call_b64decode s])
    end.
Proof.
  intros Hs. unfold decode_image, try_except.
  rewrite (bind_returns _ _ _ _ _ (strip_data_uri_no_comma s log Hs)).
  run_monad. destruct (b64decode E s) as [buf|e]; [|done].
  unfold np_frombuffer. run_monad.
  destruct (imdecode E buf); by rewrite <- app_assoc.
Qed.

(** Whatever goes wrong inside [decode_image] leaves it as a [ValueError]
    whose text starts with "Invalid image input: ". *)
Lemma decode_image_raises (image_input : PyVal) (e : Exn) (log log' : list Call) :
  decode_image E image_input log = (Raises e, log') →
  ∃ cause, e = mkExn ValueError ("Invalid image input: " +:+ exn_str cause).
Proof.
  unfold decode_image, try_except.
  match goal with |- context [match ?b log with _ => _ end] => destruct (b log) as [[img|cause] l] end.
  - done.
  - unfold raise. intros [= <- _]. by exists cause.
Qed.

(** ** C1 (the code departs from the claim).  An input whose bytes are not
    an image does not make [decode_image] fail: when [cv2.imdecode] answers
    [None] for the buffer, which is how it reports bytes it cannot decode,
    [decode_image] returns that [None] as its value.  This holds for a raw
    byte buffer and for the base64 text of such a buffer. *)
Theorem decode_image_returns_None_for_undecodable_bytes
    (buf : list Byte.byte) (log : list Call) :
  imdecode E buf = Returns None →
  decode_image E (PBytes buf) log = (Returns None, log ++ [Call_imdecode buf]) ∧
  ∀ s, str_contains "," s = false → b64decode E s = Returns buf →
       decode_image E (PStr s) log
       = (Returns None, log ++ [Call_b64decode s] ++ [Call_imdecode buf]).
Proof.
  intros Hbuf. split.
  - by rewrite decode_image_bytes, Hbuf.
  - intros s Hs Hb64. by rewrite decode_image_str, Hb64, Hbuf.
Qed.

(** ** C3 (amended).  For a text input containing a comma, the base64
    payload is exactly the substring between the first comma and the next
    comma, or the end of the string when there is no further comma: the
    header before the first comma is discarded, and so is everything from a
    second comma on.  The input is then decoded exactly as that payload
    alone would be. *)
Theorem decode_image_uses_piece_after_first_comma (s : string) :
  str_contains "," s = true →
  ∃ header payload rest,
    s = header +:+ "," +:+ payload +:+ rest ∧
    str_contains "," header = false ∧
    str_contains "," payload = false ∧
    (rest = EmptyString ∨ ∃ r, rest = String "," r) ∧
    ∀ log, strip_data_uri (PStr s) log = (Returns (PStr payload), log) ∧
           decode_image E (PStr s) log = decode_image E (PStr payload) log.
Proof.
  intros Hs.
  destruct (strip_data_uri_comma s Hs) as (header & payload & rest & Heq & Hh & Hp & Hr & Hstrip).
  exists header, payload, rest. split_and!; try done.
  intros log. split; [done|].
  unfold decode_image, try_except.
  by rewrite (bind_returns _ _ _ _ _ (Hstrip log)),
             (bind_returns _ _ _ _ _ (strip_data_uri_no_comma payload log Hp)).
Qed.

End Decoder.

(** ** Slicing *)

Lemma slice_bound_le (n : nat) (i : Z) : (slice_bound n i ≤ n)%nat.
Proof. unfold slice_bound. destruct (Z.ltb_spec i 0); lia. Qed.


(** For bounds already inside the axis, the slice is the half-open range. *)
Lemma slice_len_inside (n : nat) (a b : Z) :
  0 ≤ a → a ≤ b → b ≤ Z.of_nat n → Z.of_nat (slice_len n a b) = b - a.
Proof.
  intros Ha Hab Hb. unfold slice_len, slice_bound.
  destruct (Z.ltb_spec a 0), (Z.ltb_spec b 0); lia.
Qed.

Lemma length_take_drop {A} (l : list A) (n s : nat) :
  (n + s ≤ length l)%nat → length (take n (drop s l)) = n.
Proof. intros Hl. rewrite length_take, length_drop. apply Nat.min_l. lia. Qed.

(** A slice of a well-shaped grid is a well-shaped grid. *)
Lemma subgrid_ok (g : PixelGrid) (y1 y2 x1 x2 : Z) :
  grid_ok g → grid_ok (subgrid g y1 y2 x1 x2).
Proof.
  intros [Hh Hw]. unfold grid_ok, subgrid. simpl. split.
  - rewrite length_fmap. apply length_take_drop. rewrite Hh. unfold slice_len.
    pose proof (slice_bound_le (shape_h g) y1).
    pose proof (slice_bound_le (shape_h g) y2). lia.
  - apply Forall_fmap, Forall_take, Forall_drop.
    eapply Forall_impl; [exact Hw|]. intros row Hrow. simpl.
    apply length_take_drop. rewrite Hrow. unfold slice_len.
    pose proof (slice_bound_le (shape_w g) x1).
    pose proof (slice_bound_le (shape_w g) x2). lia.
Qed.

(** ** The card localizer *)

Section Localizer.
Context {F : Type} `{!Numeric F}.
Variable E : Env F.

Lemma scan_box_eq (best_box : option (Z * Z * Z * Z)) (max_area : F) (box : Box F) :
  scan_box (best_box, max_area) box
  = if fgt (box_area box) max_area then (Some (box_ints box), box_area box)
    else (best_box, max_area).
Proof. unfold scan_box, box_area, box_ints. by destruct (xyxy box) as [[[x1 y1] x2] y2]. Qed.

(** The nested loops visit the boxes of all results in order. *)
Lemma scan_results_flat (results : list (Results F)) :
  scan_results results = fold_left scan_box (all_boxes results) (None, f_zero).
Proof.
  unfold scan_results, all_boxes. generalize (@None (Z * Z * Z * Z), f_zero).
  induction results as [|r results IH]; intros st; simpl; [done|].
  by rewrite IH, fold_left_app.
Qed.

(** The loop invariant: [max_area] only grows, no box visited exceeds the
    final [max_area], and [best_box] changes only to a box whose area is the
    final [max_area]. *)
Lemma scan_invariant (l : list (Box F)) (best_box : option (Z * Z * Z * Z)) (max_area : F) :
  let st := fold_left scan_box l (best_box, max_area) in
  (∀ a, fgt a st.2 = true → fgt a max_area = true) ∧
  (∀ b, b ∈ l → fgt (box_area b) st.2 = false) ∧
  ((st = (best_box, max_area) ∧ ∀ b, b ∈ l → fgt (box_area b) max_area = false) ∨
   (∃ best, best ∈ l ∧ st = (Some (box_ints best), box_area best) ∧
            fgt (box_area best) max_area = true)).
Proof.
  revert best_box max_area.
  induction l as [|box l IH]; intros best_box max_area; cbn [fold_left]; cbv zeta.
  - simpl. split_and!; [done|by intros b ?%elem_of_nil|].
    left. split; [done|]. by intros b ?%elem_of_nil.
  - rewrite scan_box_eq. destruct (fgt (box_area box) max_area) eqn:Hgt.
    + destruct (IH (Some (box_ints box)) (box_area box)) as (Hmono & Hmax & Hsel).
      split_and!.
      * intros a Ha. eapply fgt_trans; [by apply Hmono|done].
      * intros b [->|Hb]%elem_of_cons; [|by apply Hmax].
        apply not_true_iff_false. intros Hself%Hmono. by rewrite fgt_irrefl in Hself.
      * right. destruct Hsel as [[Hst _]|(best & Hbest & Hst & Hbgt)].
        -- exists box. split_and!; [left|done|done].
        -- exists best. split_and!; [by right|done|]. by eapply fgt_trans.
    + destruct (IH best_box max_area) as (Hmono & Hmax & Hsel).
      split_and!; [done| |].
      * intros b [->|Hb]%elem_of_cons; [|by apply Hmax].
        apply not_true_iff_false. intros Hself%Hmono. congruence.
      * destruct Hsel as [[Hst Hall]|(best & Hbest & Hst & Hbgt)].
        -- left. split; [done|]. by intros b [->|Hb]%elem_of_cons; [|apply Hall].
        -- right. exists best. split_and!; [by right|done|done].
Qed.

(** Without a box of positive area [best_box] stays [None] and the image
    is handed back. *)
Lemma crop_card_fallback (image : option PixelGrid) (results : list (Results F))
    (log : list Call) :
  yolo_model E image = Returns results →
  (∀ b, b ∈ all_boxes results → fgt (box_area b) f_zero = false) →
  crop_card E image log = (Returns image, log ++ [Call_yolo_model image]).
Proof.
  intros Hyolo Hall. unfold crop_card. run_monad. rewrite Hyolo, scan_results_flat.
  destruct (scan_invariant (all_boxes results) None f_zero)
    as (_ & _ & [[-> _]|(best & Hbest & _ & Hgt)]); [done|].
  rewrite (Hall best Hbest) in Hgt. done.
Qed.

(** With a box of positive area, the crop is the slice of the image at the
    clamped, margin-extended integer coordinates of a box of greatest area. *)
Lemma crop_card_selected (image : PixelGrid) (results : list (Results F))
    (log : list Call) :
  yolo_model E (Some image) = Returns results →
  (∃ b, b ∈ all_boxes results ∧ fgt (box_area b) f_zero = true) →
  ∃ best bx1 by1 bx2 by2,
    best ∈ all_boxes results ∧
    box_ints best = (bx1, by1, bx2, by2) ∧
    fgt (box_area best) f_zero = true ∧
    (∀ b, b ∈ all_boxes results → fgt (box_area b) (box_area best) = false) ∧
    crop_card E (Some image) log
    = (Returns (Some (subgrid image
                        (Z.max 0 (by1 - 10)) (Z.min (Z.of_nat (shape_h image)) (by2 + 10))
                        (Z.max 0 (bx1 - 10)) (Z.min (Z.of_nat (shape_w image)) (bx2 + 10)))),
       log ++ [Call_yolo_model (Some image)]).
Proof.
  intros Hyolo (b & Hb & Hpos).
  destruct (scan_invariant (all_boxes results) None f_zero)
    as (_ & Hmax & [[_ Hall]|(best & Hbest & Hst & Hgt)]).
  { rewrite (Hall b Hb) in Hpos. done. }
  destruct (box_ints best) as [[[bx1 by1] bx2] by2] eqn:Hints.
  exists best, bx1, by1, bx2, by2. split_and!; try done.
  - intros b' Hb'. specialize (Hmax b' Hb'). by rewrite Hst in Hmax.
  - unfold crop_card. run_monad. by rewrite Hyolo, scan_results_flat, Hst.
Qed.



(** ** C5.  On a pixel grid for which the detector returns zero boxes, the
    localizer returns the input image itself: the same grid, hence the same
    dimensions, and a value rather than an exception. *)
Theorem crop_card_zero_boxes_returns_input
    (image : PixelGrid) (results : list (Results F)) (log : list Call) :
  yolo_model E (Some image) = Returns results →
  all_boxes results = [] →
  crop_card E (Some image) log
  = (Returns (Some image), log ++ [Call_yolo_model (Some image)]).
Proof.
  intros Hyolo Hnone. apply crop_card_fallback with results; [done|].
  rewrite Hnone. by intros b ?%elem_of_nil.
Qed.

End Localizer.

(** ** The object tagger *)

Section Tagger.
Context {F : Type} `{!Numeric F}.
Variable E : Env F.

Lemma tag_boxes_labels (l : list (Box F)) (acc : list string) (log : list Call) :
  (∀ b, b ∈ l → is_Some (yolo_names E !! f_int (cls b))) →
  foldM (λ acc box, lift (tag_box E acc box)) l acc log
  = (Returns (acc ++ omap (box_label E) l), log).
Proof.
  revert acc. induction l as [|box l IH]; intros acc Hnamed; simpl.
  - unfold ret. by rewrite app_nil_r.
  - destruct (Hnamed box) as [name Hname]; [left|].
    unfold bind at 1, lift at 1, tag_box, box_label. rewrite Hname.
    destruct (fgt (conf box) f_0_4).
    + rewrite IH by (intros b Hb; apply Hnamed; by right).
      by rewrite <- app_assoc.
    + by rewrite IH by (intros b Hb; apply Hnamed; by right).
Qed.

Lemma tag_results_labels (results : list (Results F)) (log : list Call) :
  (∀ b, b ∈ all_boxes results → is_Some (yolo_names E !! f_int (cls b))) →
  tag_results E results log = (Returns (omap (box_label E) (all_boxes results)), log).
Proof.
  unfold tag_results, all_boxes.
  change (omap (box_label E) (concat (boxes <$> results)))
    with ([] ++ omap (box_label E) (concat (boxes <$> results))).
  generalize (@nil string).
  induction results as [|r results IH]; intros acc Hnamed; simpl.
  - unfold ret. by rewrite app_nil_r.
  - unfold bind at 1. rewrite tag_boxes_labels.
    + rewrite IH.
      * by rewrite omap_app, app_assoc.
      * intros b Hb. apply Hnamed. simpl. apply elem_of_app. by right.
    + intros b Hb. apply Hnamed. simpl. apply elem_of_app. by left.
Qed.

(** [/shop-verify] on a decodable request: the reply lists the
    de-duplicated labels and the text read from the full frame. *)
Lemma shop_verify_report (request : Request) (d : gmap string PyVal)
    (image_data : PyVal) (img : option PixelGrid) (results : list (Results F))
    (ocr_text : list string) (log log1 : list Call) :
  request_json request = Returns (PDict d) →
  d !! "image" = Some image_data → truthy image_data = true →
  decode_image E image_data log = (Returns img, log1) →
  yolo_model E img = Returns results →
  (∀ b, b ∈ all_boxes results → is_Some (yolo_names E !! f_int (cls b))) →
  readtext E img = Returns ocr_text →
  shop_verify E request log
  = (Returns (ShopReport (list_set (omap (box_label E) (all_boxes results))) ocr_text, 200),
     log1 ++ [Call_yolo_model img] ++ [Call_readtext img]).
Proof.
  intros Hreq Hd Ht Hdecode Hyolo Hnamed Hread.
  unfold shop_verify, shop_verify_body, try_except.
  unfold bind at 1, lift at 1. rewrite Hreq. unfold py_get.
  unfold bind at 1, ret at 1. rewrite Hd. simpl. rewrite Ht. simpl.
  rewrite (bind_returns _ _ _ _ _ Hdecode).
  unfold bind at 1, call at 1. rewrite Hyolo.
  rewrite (bind_returns _ _ _ _ _ (tag_results_labels _ _ Hnamed)).
  unfold bind, call, ret. rewrite Hread. by rewrite <- app_assoc.
Qed.


End Tagger.

(** ** Confidences and the threshold *)




(** ** The endpoints *)

Section Endpoints.
Context {F : Type} `{!Numeric F}.
Variable E : Env F.

Ltac enter_handler Hreq :=
  unfold verify_cnic, verify_cnic_body, shop_verify, shop_verify_body,
         face_verify, face_verify_body, error_500, try_except;
  unfold bind at 1, lift at 1; rewrite Hreq;
  unfold py_get; run_monad.

(** A field whose value is falsy, or which is not there at all (so that
    [data.get] gives [None]), is answered with status 400 before anything
    else is done: the call log is unchanged. *)
Lemma verify_cnic_falsy (request : Request) (d : gmap string PyVal) (log : list Call) :
  request_json request = Returns (PDict d) →
  truthy (default PNone (d !! "image")) = false →
  verify_cnic E request log = (Returns (ErrorMsg "No image provided", 400), log).
Proof. intros Hreq Hfalsy. enter_handler Hreq. by rewrite Hfalsy. Qed.

Lemma shop_verify_falsy (request : Request) (d : gmap string PyVal) (log : list Call) :
  request_json request = Returns (PDict d) →
  truthy (default PNone (d !! "image")) = false →
  shop_verify E request log = (Returns (ErrorMsg "No image provided", 400), log).
Proof. intros Hreq Hfalsy. enter_handler Hreq. by rewrite Hfalsy. Qed.

Lemma face_verify_falsy (request : Request) (d : gmap string PyVal) (log : list Call) :
  request_json request = Returns (PDict d) →
  truthy (default PNone (d !! "image1")) = false ∨
  truthy (default PNone (d !! "image2")) = false →
  face_verify E request log = (Returns (ErrorMsg "image1 and image2 required", 400), log).
Proof.
  intros Hreq Hfalsy. enter_handler Hreq.
  destruct Hfalsy as [-> | ->]; [done|].
  by destruct (truthy (default PNone (d !! "image1"))).
Qed.

(** The handlers once the required fields are present and truthy. *)
Lemma verify_cnic_decodes (request : Request) (d : gmap string PyVal)
    (image_data : PyVal) (log : list Call) :
  request_json request = Returns (PDict d) →
  d !! "image" = Some image_data → truthy image_data = true →
  verify_cnic E request log
  = try_except
      (let* img := decode_image E image_data in
       let* cropped := crop_card E img in
       let* text_results := call (Call_readtext cropped) (readtext E cropped) in
       ret (RawText text_results, 200))
      (error_500 (F:=F)) log.
Proof. intros Hreq Hd Ht. enter_handler Hreq. by rewrite Hd; simpl; rewrite Ht. Qed.

Lemma shop_verify_decodes (request : Request) (d : gmap string PyVal)
    (image_data : PyVal) (log : list Call) :
  request_json request = Returns (PDict d) →
  d !! "image" = Some image_data → truthy image_data = true →
  shop_verify E request log
  = try_except
      (let* img := decode_image E image_data in
       let* results := call (Call_yolo_model img) (yolo_model E img) in
       let* detected_objects := tag_results E results in
       let* ocr_text := call (Call_readtext img) (readtext E img) in
       ret (ShopReport (list_set detected_objects) ocr_text, 200))
      (error_500 (F:=F)) log.
Proof. intros Hreq Hd Ht. enter_handler Hreq. by rewrite Hd; simpl; rewrite Ht. Qed.

Lemma face_verify_decodes (request : Request) (d : gmap string PyVal)
    (img1_data img2_data : PyVal) (log : list Call) :
  request_json request = Returns (PDict d) →
  d !! "image1" = Some img1_data → truthy img1_data = true →
  d !! "image2" = Some img2_data → truthy img2_data = true →
  face_verify E request log
  = try_except
      (let* img1 := decode_image E img1_data in
       let* img2 := decode_image E img2_data in
       let* result := call (Call_DeepFace_verify img1 img2) (DeepFace_verify E img1 img2) in
       ret (FaceVerdict (verified result) (distance result) (threshold result), 200))
      (error_500 (F:=F)) log.
Proof.
  intros Hreq Hd1 Ht1 Hd2 Ht2. enter_handler Hreq.
  by rewrite Hd1, Hd2; simpl; rewrite Ht1, Ht2.
Qed.

(** An exception raised by a handler's body ends in the catch-all clause. *)
Lemma handler_raises (body : M (Response F)) (e : Exn) (log log' : list Call) :
  body log = (Raises e, log') →
  try_except body (error_500 (F:=F)) log = (Returns (ErrorMsg (exn_str e), 500), log').
Proof. intros Hbody. by rewrite (try_except_raises _ _ _ _ _ Hbody). Qed.

(** ** C2 (amended).  A POST request whose image data the decoder rejects
    is answered with status 500, the server-error class, and the body
    [{"error": "Invalid image input: ..."}]: the decoder's exception reaches
    the handler's catch-all clause, and there is no separate client-error
    reply for it.  This holds for [/verify-cnic] and [/shop-verify] on the
    field [image], and for [/face-verify] whichever of its two images is
    rejected. *)
Theorem decode_failure_is_reported_with_status_500
    (request : Request) (d : gmap string PyVal) (log : list Call) :
  request_json request = Returns (PDict d) →
  (∀ image_data e log',
     d !! "image" = Some image_data → truthy image_data = true →
     decode_image E image_data log = (Raises e, log') →
     (∃ cause, exn_str e = "Invalid image input: " +:+ cause) ∧
     verify_cnic E request log = (Returns (ErrorMsg (exn_str e), 500), log') ∧
     shop_verify E request log = (Returns (ErrorMsg (exn_str e), 500), log') ∧
     is_server_error (status (F:=F) (ErrorMsg (exn_str e), 500))) ∧
  (∀ img1_data img2_data e log',
     d !! "image1" = Some img1_data → truthy img1_data = true →
     d !! "image2" = Some img2_data → truthy img2_data = true →
     (decode_image E img1_data log = (Raises e, log') ∨
      ∃ img1 log1, decode_image E img1_data log = (Returns img1, log1) ∧
                   decode_image E img2_data log1 = (Raises e, log')) →
     (∃ cause, exn_str e = "Invalid image input: " +:+ cause) ∧
     face_verify E request log = (Returns (ErrorMsg (exn_str e), 500), log')).
Proof.
  intros Hreq. split.
  - intros image_data e log' Hd Ht Hdecode. split_and!.
    + destruct (decode_image_raises E _ _ _ _ Hdecode) as [cause ->]. by eexists.
    + rewrite (verify_cnic_decodes _ _ _ _ Hreq Hd Ht).
      apply handler_raises. by apply bind_raises.
    + rewrite (shop_verify_decodes _ _ _ _ Hreq Hd Ht).
      apply handler_raises. by apply bind_raises.
    + unfold is_server_error, status. simpl. lia.
  - intros img1_data img2_data e log' Hd1 Ht1 Hd2 Ht2 Hdecode.
    rewrite (face_verify_decodes _ _ _ _ _ Hreq Hd1 Ht1 Hd2 Ht2).
    destruct Hdecode as [Hdecode|(img1 & log1 & Hdecode1 & Hdecode)].
    + split; [destruct (decode_image_raises E _ _ _ _ Hdecode) as [cause ->]; by eexists|].
      apply handler_raises. by apply bind_raises.
    + split; [destruct (decode_image_raises E _ _ _ _ Hdecode) as [cause ->]; by eexists|].
      apply handler_raises. rewrite (bind_returns _ _ _ _ _ Hdecode1).
      by apply bind_raises.
Qed.

(** ** C7 (amended).  A POST request to [/face-verify] whose body is a
    JSON object that lacks [image1] is answered with status 400 and no call
    is made to the face model or to anything else: the call log is
    unchanged.  The same holds when [image2] is the missing field, and for
    [/verify-cnic] and [/shop-verify] when [image] is missing from the
    object. *)
Theorem missing_field_is_400_without_model_call
    (request : Request) (d : gmap string PyVal) (log : list Call) :
  request_json request = Returns (PDict d) →
  (d !! "image1" = None ∨ d !! "image2" = None →
   face_verify E request log
   = (Returns (ErrorMsg "image1 and image2 required", 400), log)) ∧
  (d !! "image" = None →
   verify_cnic E request log = (Returns (ErrorMsg "No image provided", 400), log) ∧
   shop_verify E request log = (Returns (ErrorMsg "No image provided", 400), log)).
Proof.
  intros Hreq. split.
  - intros Hmissing. apply face_verify_falsy with d; [done|].
    destruct Hmissing as [-> | ->]; [by left|by right].
  - intros Hmissing. split.
    + apply verify_cnic_falsy with d; [done|]. by rewrite Hmissing.
    + apply shop_verify_falsy with d; [done|]. by rewrite Hmissing.
Qed.

(** ** C10.  A required image field that is present with a falsy value
    (the empty string, [null], [false], zero, an empty list or object) is
    treated like an absent one by every endpoint: the reply is the 400
    missing-input error and no decoding is attempted, the call log being
    unchanged. *)
Theorem falsy_field_is_400_without_decoding
    (request : Request) (d : gmap string PyVal) (log : list Call) :
  request_json request = Returns (PDict d) →
  (∀ v, d !! "image" = Some v → truthy v = false →
        verify_cnic E request log = (Returns (ErrorMsg "No image provided", 400), log) ∧
        shop_verify E request log = (Returns (ErrorMsg "No image provided", 400), log)) ∧
  (∀ v, (d !! "image1" = Some v ∨ d !! "image2" = Some v) → truthy v = false →
        face_verify E request log
        = (Returns (ErrorMsg "image1 and image2 required", 400), log)).
Proof.
  intros Hreq. split.
  - intros v Hv Hfalsy. split.
    + apply verify_cnic_falsy with d; [done|]. by rewrite Hv.
    + apply shop_verify_falsy with d; [done|]. by rewrite Hv.
  - intros v Hv Hfalsy. apply face_verify_falsy with d; [done|].
    destruct Hv as [Hv|Hv]; rewrite Hv; [by left|by right].
Qed.


End Endpoints.

(** ** Concrete runs *)

(** C1 at the bytes of "hello", raw and as base64 text. *)
Lemma decode_image_returns_None_on_hello :
  imdecode (Sample.env []) Sample.hello = Returns None ∧
  decode_image (Sample.env []) (PBytes Sample.hello) []
  = (Returns None, [] ++ [Call_imdecode Sample.hello]) ∧
  decode_image (Sample.env []) (PStr Sample.hello_b64) []
  = (Returns None, [] ++ [Call_b64decode Sample.hello_b64] ++ [Call_imdecode Sample.hello]).
Proof.
  pose proof (decode_image_returns_None_for_undecodable_bytes
                (Sample.env []) Sample.hello [] eq_refl) as [Hbytes Hstr].
  split; [reflexivity|]. split; [exact Hbytes|].
  exact (Hstr Sample.hello_b64 eq_refl eq_refl).
Defined.

(** C2 as stated fails: the text "abc" is not valid base64, the decoder
    raises, and [/verify-cnic] answers 500, which is not a client error. *)
Lemma undecodable_image_answered_with_500_not_4xx :
  let E := Sample.env [] in
  let request := Sample.post [("image", PStr "abc")] in
  (∃ e log, decode_image E (PStr "abc") [] = (Raises e, log)) ∧
  ∃ body log, verify_cnic E request [] = (Returns (body, 500), log) ∧
              ¬ is_client_error (status (body, 500)).
Proof.
  split.
  - eexists _, _. vm_compute. reflexivity.
  - eexists _, _. split; [vm_compute; reflexivity|].
    unfold is_client_error, status. simpl. lia.
Qed.

(** C2 (amended) on a request whose [image] and [image2] are the invalid
    base64 text "abc". *)
Lemma decode_failure_is_reported_with_status_500_witness :
  let E := Sample.env [] in
  let fields := [("image", PStr "abc"); ("image1", PStr Sample.pixel_b64);
                 ("image2", PStr "abc")] in
  let e := mkExn ValueError "Invalid image input: Incorrect padding" in
  request_json (Sample.post fields) = Returns (PDict (list_to_map fields)) ∧
  decode_image E (PStr "abc") [] = (Raises e, [Call_b64decode "abc"]) ∧
  verify_cnic E (Sample.post fields) []
  = (Returns (ErrorMsg "Invalid image input: Incorrect padding", 500), [Call_b64decode "abc"]) ∧
  shop_verify E (Sample.post fields) []
  = (Returns (ErrorMsg "Invalid image input: Incorrect padding", 500), [Call_b64decode "abc"]) ∧
  ∃ log', face_verify E (Sample.post fields) []
          = (Returns (ErrorMsg "Invalid image input: Incorrect padding", 500), log').
Proof.
  intros E fields e.
  pose proof (decode_failure_is_reported_with_status_500
                E (Sample.post fields) (list_to_map fields) [] eq_refl) as [Himage Hface].
  assert (Hdecode : decode_image E (PStr "abc") [] = (Raises e, [Call_b64decode "abc"]))
    by (vm_compute; reflexivity).
  destruct (Himage (PStr "abc") e _ ltac:(vm_compute; reflexivity) eq_refl Hdecode)
    as (_ & Hcnic & Hshop & _).
  split; [reflexivity|]. split; [exact Hdecode|]. split; [exact Hcnic|].
  split; [exact Hshop|].
  eexists.
  refine (proj2 (Hface (PStr Sample.pixel_b64) (PStr "abc") e _
                   ltac:(vm_compute; reflexivity) eq_refl
                   ltac:(vm_compute; reflexivity) eq_refl _)).
  right. eexists _, _. split; vm_compute; reflexivity.
Defined.

(** C3 as stated fails: in "data:,SQEB,ECAw" the substring after the first
    comma is "SQEB,ECAw", which the base64 decoder turns into the bytes of
    an image; the decoder is given "SQEB" instead, and no image comes out. *)
Lemma decode_image_drops_text_after_second_comma :
  let s := "data:,SQEB,ECAw" in
  str_contains "," s = true ∧
  after_first "," s = "SQEB,ECAw" ∧
  strip_data_uri (PStr s) [] = (Returns (PStr "SQEB"), []) ∧
  PStr "SQEB" ≠ PStr (after_first "," s) ∧
  (∃ buf, Sample.b64decode (after_first "," s) = Returns buf ∧
          Sample.imdecode buf = Returns (Some Sample.pixel_image)) ∧
  ∃ buf, decode_image (Sample.env []) (PStr s) []
         = (Returns None, [Call_b64decode "SQEB"; Call_imdecode buf]).
Proof.
  split_and!; try (vm_compute; reflexivity).
  - vm_compute. discriminate.
  - eexists. split; vm_compute; reflexivity.
  - eexists. vm_compute. reflexivity.
Qed.

(** C3 (amended) on a data URI. *)
Lemma decode_image_uses_piece_after_first_comma_witness :
  let s := "data:image/png;base64,SQEBECAw" in
  str_contains "," s = true ∧
  ∃ header payload rest,
    s = header +:+ "," +:+ payload +:+ rest ∧
    str_contains "," header = false ∧
    str_contains "," payload = false ∧
    (rest = EmptyString ∨ ∃ r, rest = String "," r) ∧
    ∀ log, strip_data_uri (PStr s) log = (Returns (PStr payload), log) ∧
           decode_image (Sample.env []) (PStr s) log
           = decode_image (Sample.env []) (PStr payload) log.
Proof.
  intros s. split; [reflexivity|].
  exact (decode_image_uses_piece_after_first_comma (Sample.env []) s eq_refl).
Defined.



(** The run behind the previous lemma: the crop around the first box, rows
    0 to 25 and columns 0 to 25. *)
Lemma crop_card_first_of_two_largest_run :
  let first := Sample.box 5 5 15 15 0 (1 # 2) in
  let second := Sample.box 20 20 30 30 73 (1 # 2) in
  let small := Sample.box 0 0 3 3 0 (1 # 2) in
  crop_card (Sample.env [mkResults [first; second]; mkResults [small]])
            (Some Sample.image) []
  = (Returns (Some (subgrid Sample.image 0 25 0 25)), [Call_yolo_model (Some Sample.image)]) ∧
  shape_h (subgrid Sample.image 0 25 0 25) = 25%nat ∧
  shape_w (subgrid Sample.image 0 25 0 25) = 25%nat.
Proof. split_and!; vm_compute; reflexivity. Qed.

(** C5 on the 40 x 50 image with a detector that finds nothing. *)
Lemma crop_card_zero_boxes_returns_input_witness :
  let E := Sample.env [mkResults []] in
  yolo_model E (Some Sample.image) = Returns [mkResults []] ∧
  all_boxes [mkResults (F:=Q) []] = [] ∧
  crop_card E (Some Sample.image) []
  = (Returns (Some Sample.image), [] ++ [Call_yolo_model (Some Sample.image)]).
Proof.
  intros E. split; [reflexivity|]. split; [reflexivity|].
  exact (crop_card_zero_boxes_returns_input E Sample.image [mkResults []] [] eq_refl eq_refl).
Defined.


(** The run behind the previous lemma: the car just above 0.4 is kept, the
    book just below is not, and "person" appears once. *)
Lemma tagger_run :
  let results := [mkResults [Sample.box 1 1 5 5 0 (float_value 1 (-1));
                             Sample.box 1 1 5 5 2 (float_value 13421773 (-25))];
                  mkResults [Sample.box 1 1 5 5 73 (float_value 13421772 (-25));
                             Sample.box 1 1 5 5 0 (float_value 15099494 (-24))]] in
  tag_results (Sample.env results) results [] = (Returns ["person"; "car"; "person"], []) ∧
  (∀ label, label ∈ list_set ["person"; "car"; "person"] ↔ label = "person" ∨ label = "car") ∧
  length (list_set ["person"; "car"; "person"]) = 2%nat.
Proof.
  split_and!; [vm_compute; reflexivity| |vm_compute; reflexivity].
  intros label. unfold list_set.
  rewrite elem_of_elements, elem_of_list_to_set, !elem_of_cons, elem_of_nil. tauto.
Qed.

(** C7 as stated fails: a POST to [/face-verify] whose JSON body is an
    empty list has no [image1]; it is answered with status 500, not 400.
    No model is called. *)
Lemma missing_image1_in_list_body_is_500 :
  let E := Sample.env [] in
  let request := mkRequest (Returns (PList [])) in
  face_verify E request []
  = (Returns (ErrorMsg "'list' object has no attribute 'get'", 500), []) ∧
  ¬ is_client_error (status (F:=Q) (ErrorMsg "'list' object has no attribute 'get'", 500)) ∧
  verify_cnic E request []
  = (Returns (ErrorMsg "'list' object has no attribute 'get'", 500), []).
Proof.
  split_and!; [vm_compute; reflexivity| |vm_compute; reflexivity].
  unfold is_client_error, status. simpl. lia.
Qed.

(** C7 on a request that carries [image2] only. *)
Lemma missing_field_is_400_without_model_call_witness :
  let E := Sample.env [] in
  let fields := [("image2", PStr Sample.pixel_b64)] in
  request_json (Sample.post fields) = Returns (PDict (list_to_map fields)) ∧
  (list_to_map fields : gmap string PyVal) !! "image1" = None ∧
  (list_to_map fields : gmap string PyVal) !! "image" = None ∧
  face_verify E (Sample.post fields) []
  = (Returns (ErrorMsg "image1 and image2 required", 400), []) ∧
  verify_cnic E (Sample.post fields) [] = (Returns (ErrorMsg "No image provided", 400), []) ∧
  shop_verify E (Sample.post fields) [] = (Returns (ErrorMsg "No image provided", 400), []).
Proof.
  intros E fields.
  pose proof (missing_field_is_400_without_model_call
                E (Sample.post fields) (list_to_map fields) [] eq_refl) as [Hface Himage].
  assert (H1 : (list_to_map fields : gmap string PyVal) !! "image1" = None)
    by (vm_compute; reflexivity).
  assert (H0 : (list_to_map fields : gmap string PyVal) !! "image" = None)
    by (vm_compute; reflexivity).
  split; [reflexivity|]. split; [exact H1|]. split; [exact H0|].
  split; [exact (Hface (or_introl H1))|]. exact (Himage H0).
Defined.

(** C10 on a request with [image] the empty string and [image1] null. *)
Lemma falsy_field_is_400_without_decoding_witness :
  let E := Sample.env [] in
  let fields := [("image", PStr ""); ("image1", PNone); ("image2", PStr Sample.pixel_b64)] in
  request_json (Sample.post fields) = Returns (PDict (list_to_map fields)) ∧
  (list_to_map fields : gmap string PyVal) !! "image" = Some (PStr "") ∧
  truthy (PStr "") = false ∧
  (list_to_map fields : gmap string PyVal) !! "image1" = Some PNone ∧
  truthy PNone = false ∧
  verify_cnic E (Sample.post fields) [] = (Returns (ErrorMsg "No image provided", 400), []) ∧
  shop_verify E (Sample.post fields) [] = (Returns (ErrorMsg "No image provided", 400), []) ∧
  face_verify E (Sample.post fields) []
  = (Returns (ErrorMsg "image1 and image2 required", 400), []).
Proof.
  intros E fields.
  pose proof (falsy_field_is_400_without_decoding
                E (Sample.post fields) (list_to_map fields) [] eq_refl) as [Himage Hface].
  assert (H0 : (list_to_map fields : gmap string PyVal) !! "image" = Some (PStr ""))
    by (vm_compute; reflexivity).
  assert (H1 : (list_to_map fields : gmap string PyVal) !! "image1" = Some PNone)
    by (vm_compute; reflexivity).
  split; [reflexivity|]. split; [exact H0|]. split; [reflexivity|].
  split; [exact H1|]. split; [reflexivity|].
  destruct (Himage (PStr "") H0 eq_refl) as [Hcnic Hshop].
  split; [exact Hcnic|]. split; [exact Hshop|].
  exact (Hface PNone (or_introl H1) eq_refl).
Defined.


(** * Further properties of the program *)

(** ** Which calls a computation can make *)

Section CallsOnly.
Context {A B : Type}.
Variable P : Call → bool.

Lemma calls_only_ret (a : A) : calls_only P (ret a).
Proof. intros log. exists []. by rewrite app_nil_r. Qed.

Lemma calls_only_raise (e : Exn) : calls_only P (raise (A:=A) e).
Proof. intros log. exists []. by rewrite app_nil_r. Qed.

Lemma calls_only_lift (o : Outcome A) : calls_only P (lift o).
Proof. intros log. exists []. by rewrite app_nil_r. Qed.

Lemma calls_only_call (c : Call) (o : Outcome A) : P c = true → calls_only P (call c o).
Proof. intros Hc log. exists [c]. simpl. by rewrite Hc. Qed.

Lemma calls_only_bind (c : M A) (k : A → M B) :
  calls_only P c → (∀ a, calls_only P (k a)) → calls_only P (bind c k).
Proof.
  intros Hc Hk log. destruct (Hc log) as (calls & Hlog & Hcalls). unfold bind.
  destruct (c log) as [[a|e] log1]; simpl in Hlog; subst log1.
  - destruct (Hk a (log ++ calls)) as (calls' & Hlog' & Hcalls').
    exists (calls ++ calls'). rewrite Hlog', app_assoc, forallb_app, Hcalls, Hcalls'. done.
  - by exists calls.
Qed.

Lemma calls_only_try_except (body : M A) (h : Exn → M A) :
  calls_only P body → (∀ e, calls_only P (h e)) → calls_only P (try_except body h).
Proof.
  intros Hc Hh log. destruct (Hc log) as (calls & Hlog & Hcalls). unfold try_except.
  destruct (body log) as [[a|e] log1]; simpl in Hlog; subst log1.
  - by exists calls.
  - destruct (Hh e (log ++ calls)) as (calls' & Hlog' & Hcalls').
    exists (calls ++ calls'). rewrite Hlog', app_assoc, forallb_app, Hcalls, Hcalls'. done.
Qed.

End CallsOnly.

Lemma calls_only_foldM {A B} (P : Call → bool) (f : A → B → M A) (l : list B) (a : A) :
  (∀ a x, calls_only P (f a x)) → calls_only P (foldM f l a).
Proof.
  intros Hf. revert a. induction l as [|x l IH]; intros a; simpl.
  - apply calls_only_ret.
  - apply calls_only_bind; [apply Hf|apply IH].
Qed.

(** Inversion of a [bind] that returned. *)
Lemma bind_returns_inv {A B} (c : M A) (k : A → M B) (b : B) (log log' : list Call) :
  bind c k log = (Returns b, log') →
  ∃ a log1, c log = (Returns a, log1) ∧ k a log1 = (Returns b, log').
Proof.
  unfold bind. destruct (c log) as [[a|e] log1]; [|done]. intros Hk. by exists a, log1.
Qed.

(** ** More on the image decoder *)

Lemma str_split_after_first (sep : ascii) (s : string) :
  str_contains sep s = true →
  ∃ header, str_split sep s = header :: str_split sep (after_first sep s).
Proof.
  induction s as [|c s IH]; simpl; [done|].
  destruct (Ascii.eqb c sep); [by eexists|].
  intros Hs. destruct (IH Hs) as [header ->]. by eexists.
Qed.

Section DecoderMore.
Context {F : Type}.
Variable E : Env F.

(** ** X1.  Whatever [decode_image] returns is what [cv2.imdecode] gave for
    some buffer, the input bytes or the base64 decoding of the payload, and
    these are the only calls it makes; whatever it raises is a [ValueError]
    whose text starts with "Invalid image input: ", raised after calls to
    the base64 decoder and to [cv2.imdecode] only. *)
Theorem decode_image_outcomes (image_input : PyVal) (log : list Call) :
  match decode_image E image_input log with
  | (Returns img, log') =>
      ∃ buf, imdecode E buf = Returns img ∧
             ((image_input = PBytes buf ∧ log' = log ++ [Call_imdecode buf]) ∨
              ∃ payload, b64decode E payload = Returns buf ∧
                         log' = log ++ [Call_b64decode payload; Call_imdecode buf])
  | (Raises e, log') =>
      exn_class e = ValueError ∧
      (∃ cause, exn_str e = "Invalid image input: " +:+ cause) ∧
      ∃ calls, log' = log ++ calls ∧ forallb is_decoder_call calls = true
  end.
Proof.
  assert (Hstr : ∀ payload,
    match try_except
            (let* img_bytes :=
               (let* b := call (Call_b64decode payload) (b64decode E payload) in
                ret (PBytes b)) in
             let* img_arr := np_frombuffer img_bytes in
             let* img := call (Call_imdecode img_arr) (imdecode E img_arr) in
             ret img)
            (λ e, raise (mkExn ValueError ("Invalid image input: " +:+ exn_str e))) log
    with
    | (Returns img, log') =>
        ∃ buf, imdecode E buf = Returns img ∧
               ((image_input = PBytes buf ∧ log' = log ++ [Call_imdecode buf]) ∨
                ∃ payload, b64decode E payload = Returns buf ∧
                           log' = log ++ [Call_b64decode payload; Call_imdecode buf])
    | (Raises e, log') =>
        exn_class e = ValueError ∧
        (∃ cause, exn_str e = "Invalid image input: " +:+ cause) ∧
        ∃ calls, log' = log ++ calls ∧ forallb is_decoder_call calls = true
    end).
  { intros payload. run_monad. destruct (b64decode E payload) as [buf|e] eqn:Hb64.
    - unfold np_frombuffer. run_monad. destruct (imdecode E buf) as [img|e] eqn:Him.
      + exists buf. split; [done|]. right. exists payload. by rewrite <- app_assoc.
      + split_and!; [done|by eexists|].
        exists [Call_b64decode payload; Call_imdecode buf]. by rewrite <- app_assoc.
    - split_and!; [done|by eexists|]. by exists [Call_b64decode payload]. }
  assert (Hother : ∀ v, (∀ b, v ≠ PBytes b) →
    np_frombuffer v log
    = (Raises (mkExn TypeError
                 ("a bytes-like object is required, not '" +:+ type_name v +:+ "'")), log)).
  { intros v Hv. destruct v; try done. by destruct (Hv b). }
  unfold decode_image.
  destruct image_input as [|b|z|q|s|buf|l|d];
    try (unfold try_except, strip_data_uri; unfold bind at 1, ret at 1;
         unfold bind at 1, ret at 1; unfold bind at 1; rewrite Hother by done;
         split_and!; [done|by eexists|]; exists []; by rewrite app_nil_r).
  - unfold strip_data_uri. destruct (str_contains "," s).
    + destruct (str_split "," s !! 1%nat) as [piece|].
      * unfold try_except at 1. unfold bind at 1, ret at 1. apply (Hstr piece).
      * run_monad. split_and!; [done|by eexists|]. exists []. by rewrite app_nil_r.
    + unfold try_except at 1. unfold bind at 1, ret at 1. apply (Hstr s).
  - unfold np_frombuffer. run_monad. destruct (imdecode E buf) as [img|e] eqn:Him.
    + exists buf. split; [done|]. by left.
    + split_and!; [done|by eexists|]. by exists [Call_imdecode buf].
Qed.

(** ** X2.  For a text input with exactly one comma, the payload is the
    whole substring after that comma, and when its base64 decoding is a
    buffer that [cv2.imdecode] decodes, [decode_image] returns that image
    after exactly those two calls. *)
Theorem decode_image_single_comma_data_uri
    (s : string) (buf : list Byte.byte) (img : option PixelGrid) (log : list Call) :
  str_contains "," s = true →
  str_contains "," (after_first "," s) = false →
  b64decode E (after_first "," s) = Returns buf →
  imdecode E buf = Returns img →
  strip_data_uri (PStr s) log = (Returns (PStr (after_first "," s)), log) ∧
  decode_image E (PStr s) log
  = (Returns img, log ++ [Call_b64decode (after_first "," s); Call_imdecode buf]).
Proof.
  intros Hs Hafter Hb64 Him.
  assert (Hstrip : strip_data_uri (PStr s) log = (Returns (PStr (after_first "," s)), log)).
  { unfold strip_data_uri. rewrite Hs.
    destruct (str_split_after_first "," s Hs) as [header ->].
    by rewrite (str_split_no_sep _ _ Hafter). }
  split; [done|].
  unfold decode_image, try_except. rewrite (bind_returns _ _ _ _ _ Hstrip).
  unfold np_frombuffer. run_monad. rewrite Hb64, Him. by rewrite <- app_assoc.
Qed.

End DecoderMore.

(** ** More on slicing and the card localizer *)

Lemma slice_bound_inside (n : nat) (i : Z) :
  0 ≤ i → i ≤ Z.of_nat n → slice_bound n i = Z.to_nat i.
Proof. intros Hi Hn. unfold slice_bound. destruct (Z.ltb_spec i 0); lia. Qed.

Lemma lookup_take_drop {A} (l : list A) (n s i : nat) :
  (i < n)%nat → take n (drop s l) !! i = l !! (s + i)%nat.
Proof. intros Hi. by rewrite lookup_take_lt, lookup_drop. Qed.

(** A pixel of a slice with bounds inside the image is the pixel of the
    image at the offset position. *)
Lemma subgrid_pixel_at (g : PixelGrid) (y1 y2 x1 x2 : Z) (i j : nat) :
  0 ≤ y1 → y1 ≤ y2 → y2 ≤ Z.of_nat (shape_h g) →
  0 ≤ x1 → x1 ≤ x2 → x2 ≤ Z.of_nat (shape_w g) →
  Z.of_nat i < y2 - y1 → Z.of_nat j < x2 - x1 →
  pixel_at (subgrid g y1 y2 x1 x2) i j
  = pixel_at g (Z.to_nat y1 + i) (Z.to_nat x1 + j).
Proof.
  intros Hy1 Hy12 Hy2 Hx1 Hx12 Hx2 Hi Hj. unfold pixel_at, subgrid. simpl.
  pose proof (slice_len_inside (shape_h g) y1 y2 Hy1 Hy12 Hy2) as Hh.
  pose proof (slice_len_inside (shape_w g) x1 x2 Hx1 Hx12 Hx2) as Hw.
  rewrite list_lookup_fmap, lookup_take_drop by lia.
  rewrite (slice_bound_inside (shape_h g) y1), (slice_bound_inside (shape_w g) x1) by lia.
  destruct (pixels g !! (Z.to_nat y1 + i)%nat) as [row|]; simpl; [|done].
  apply lookup_take_drop. lia.
Qed.

Section LocalizerMore.
Context {F : Type} `{!Numeric F}.
Variable E : Env F.

(** The running maximum is the initial value or the area of a box seen. *)
Lemma scan_max_area (l : list (Box F)) (best_box : option (Z * Z * Z * Z)) (max_area : F) :
  (fold_left scan_box l (best_box, max_area)).2 = max_area ∨
  ∃ b, b ∈ l ∧ (fold_left scan_box l (best_box, max_area)).2 = box_area b.
Proof.
  destruct (scan_invariant l best_box max_area) as (_ & _ & [[-> _]|(b & Hb & -> & _)]).
  - by left.
  - right. by exists b.
Qed.

(** A box of positive area that is strictly larger than every box before it
    and not exceeded by any box after it is the one [best_box] ends on. *)
Lemma scan_results_first_largest (results : list (Results F))
    (pre post : list (Box F)) (best : Box F) :
  all_boxes results = pre ++ best :: post →
  fgt (box_area best) f_zero = true →
  (∀ b, b ∈ pre → fgt (box_area best) (box_area b) = true) →
  (∀ b, b ∈ post → fgt (box_area b) (box_area best) = false) →
  scan_results results = (Some (box_ints best), box_area best).
Proof.
  intros Hboxes Hpos Hpre Hpost.
  rewrite scan_results_flat, Hboxes, fold_left_app. cbn [fold_left].
  destruct (fold_left scan_box pre (None, f_zero)) as [bb m] eqn:Hscan.
  assert (Hm : fgt (box_area best) m = true).
  { destruct (scan_max_area pre None f_zero) as [Hinit|(b & Hb & Hinit)];
      rewrite Hscan in Hinit; simpl in Hinit; subst m; [done|by apply Hpre]. }
  rewrite scan_box_eq, Hm.
  destruct (scan_invariant post (Some (box_ints best)) (box_area best))
    as (_ & _ & [[-> _]|(b & Hb & _ & Hgt)]); [done|].
  rewrite (Hpost b Hb) in Hgt. done.
Qed.

(** ** X3.  Ties go to the earlier box: the box the localizer crops around
    is the first one, in the detector's order, that has positive area, is
    strictly larger than every box before it and is not exceeded by any box
    after it. *)
Theorem crop_card_crops_first_largest_box
    (image : PixelGrid) (results : list (Results F)) (pre post : list (Box F))
    (best : Box F) (bx1 by1 bx2 by2 : Z) (log : list Call) :
  yolo_model E (Some image) = Returns results →
  all_boxes results = pre ++ best :: post →
  box_ints best = (bx1, by1, bx2, by2) →
  fgt (box_area best) f_zero = true →
  (∀ b, b ∈ pre → fgt (box_area best) (box_area b) = true) →
  (∀ b, b ∈ post → fgt (box_area b) (box_area best) = false) →
  crop_card E (Some image) log
  = (Returns (Some (subgrid image
                      (Z.max 0 (by1 - 10)) (Z.min (Z.of_nat (shape_h image)) (by2 + 10))
                      (Z.max 0 (bx1 - 10)) (Z.min (Z.of_nat (shape_w image)) (bx2 + 10)))),
     log ++ [Call_yolo_model (Some image)]).
Proof.
  intros Hyolo Hboxes Hints Hpos Hpre Hpost. unfold crop_card. run_monad.
  by rewrite Hyolo, (scan_results_first_largest _ _ _ _ Hboxes Hpos Hpre Hpost), Hints.
Qed.

(** ** X4.  When the integer coordinates of the selected box lie inside the
    image, the crop has exactly the clamped, margin-extended extent, it
    contains the box, each of its pixels is the pixel of the image at the
    offset position, and it is again a well-shaped grid. *)
Theorem crop_card_geometry
    (image : PixelGrid) (results : list (Results F)) (log : list Call) :
  yolo_model E (Some image) = Returns results →
  (∃ b, b ∈ all_boxes results ∧ fgt (box_area b) f_zero = true) →
  ∃ best bx1 by1 bx2 by2 crop,
    best ∈ all_boxes results ∧
    box_ints best = (bx1, by1, bx2, by2) ∧
    crop_card E (Some image) log
    = (Returns (Some crop), log ++ [Call_yolo_model (Some image)]) ∧
    (grid_ok image → grid_ok crop) ∧
    (0 ≤ bx1 → bx1 ≤ bx2 → bx2 ≤ Z.of_nat (shape_w image) →
     0 ≤ by1 → by1 ≤ by2 → by2 ≤ Z.of_nat (shape_h image) →
     let x1 := Z.max 0 (bx1 - 10) in
     let y1 := Z.max 0 (by1 - 10) in
     let x2 := Z.min (Z.of_nat (shape_w image)) (bx2 + 10) in
     let y2 := Z.min (Z.of_nat (shape_h image)) (by2 + 10) in
     Z.of_nat (shape_h crop) = y2 - y1 ∧
     Z.of_nat (shape_w crop) = x2 - x1 ∧
     x1 ≤ bx1 ∧ bx2 ≤ x2 ∧ y1 ≤ by1 ∧ by2 ≤ y2 ∧
     ∀ i j, (i < shape_h crop)%nat → (j < shape_w crop)%nat →
            pixel_at crop i j = pixel_at image (Z.to_nat y1 + i) (Z.to_nat x1 + j)).
Proof.
  intros Hyolo Hpos.
  destruct (crop_card_selected E image results log Hyolo Hpos)
    as (best & bx1 & by1 & bx2 & by2 & Hbest & Hints & _ & _ & Hcrop).
  exists best, bx1, by1, bx2, by2. eexists. split_and!; [done|done|exact Hcrop|..].
  - apply subgrid_ok.
  - intros Hx1 Hx12 Hx2 Hy1 Hy12 Hy2. cbv zeta.
    assert (Hh : Z.of_nat (slice_len (shape_h image) (Z.max 0 (by1 - 10))
                              (Z.min (Z.of_nat (shape_h image)) (by2 + 10)))
                 = Z.min (Z.of_nat (shape_h image)) (by2 + 10) - Z.max 0 (by1 - 10))
      by (apply slice_len_inside; lia).
    assert (Hw : Z.of_nat (slice_len (shape_w image) (Z.max 0 (bx1 - 10))
                              (Z.min (Z.of_nat (shape_w image)) (bx2 + 10)))
                 = Z.min (Z.of_nat (shape_w image)) (bx2 + 10) - Z.max 0 (bx1 - 10))
      by (apply slice_len_inside; lia).
    simpl. split_and!; [exact Hh|exact Hw|lia..|].
    intros i j Hi Hj. apply subgrid_pixel_at; lia.
Qed.

(** ** X5.  On a [None] image, which is what [decode_image] hands over for
    bytes that are not an image, the localizer still calls the detector; if
    the detector then reports a box of positive area, reading [image.shape]
    raises [AttributeError], and otherwise [None] is returned. *)
Theorem crop_card_on_None (results : list (Results F)) (log : list Call) :
  yolo_model E None = Returns results →
  ((∃ b, b ∈ all_boxes results ∧ fgt (box_area b) f_zero = true) →
   crop_card E None log
   = (Raises (mkExn AttributeError "'NoneType' object has no attribute 'shape'"),
      log ++ [Call_yolo_model None])) ∧
  ((∀ b, b ∈ all_boxes results → fgt (box_area b) f_zero = false) →
   crop_card E None log = (Returns None, log ++ [Call_yolo_model None])).
Proof.
  intros Hyolo. split.
  - intros (b & Hb & Hpos). unfold crop_card. run_monad.
    rewrite Hyolo, scan_results_flat.
    destruct (scan_invariant (all_boxes results) None f_zero)
      as (_ & _ & [[_ Hall]|(best & _ & -> & _)]).
    + rewrite (Hall b Hb) in Hpos. done.
    + simpl. by destruct (box_ints best) as [[[x1 y1] x2] y2].
  - intros Hall. by apply crop_card_fallback with results.
Qed.

End LocalizerMore.

(** ** More on the object tagger *)

Lemma foldM_app {A B} (f : A → B → M A) (l1 l2 : list B) (a : A) (log : list Call) :
  foldM f (l1 ++ l2) a log = bind (foldM f l1 a) (foldM f l2) log.
Proof.
  revert a log. induction l1 as [|x l1 IH]; intros a log; simpl; [done|].
  unfold bind. destruct (f a x log) as [[a'|e] log1]; [|done].
  rewrite IH. by unfold bind.
Qed.

Section TaggerMore.
Context {F : Type} `{!Numeric F}.
Variable E : Env F.

(** The nested loops of the tagger visit the boxes of all results in order. *)
Lemma tag_results_flat (results : list (Results F)) (log : list Call) :
  tag_results E results log
  = foldM (λ acc box, lift (tag_box E acc box)) (all_boxes results) [] log.
Proof.
  unfold tag_results, all_boxes. generalize (@nil string). revert log.
  induction results as [|r results IH]; intros log acc; simpl; [done|].
  rewrite foldM_app. unfold bind.
  destruct (foldM _ (boxes r) acc log) as [[acc'|e] log1]; [|done]. apply IH.
Qed.

(** The tagger stops at the first box whose class id has no name. *)
Lemma tag_results_unnamed (results : list (Results F)) (pre post : list (Box F))
    (b : Box F) (log : list Call) :
  all_boxes results = pre ++ b :: post →
  (∀ b', b' ∈ pre → is_Some (yolo_names E !! f_int (cls b'))) →
  yolo_names E !! f_int (cls b) = None →
  tag_results E results log = (Raises (mkExn KeyError (pretty (f_int (cls b)))), log).
Proof.
  intros Hboxes Hpre Hb. rewrite tag_results_flat, Hboxes, foldM_app.
  rewrite (bind_returns _ _ _ _ _ (tag_boxes_labels E pre [] log Hpre)).
  simpl. unfold bind, lift, tag_box. by rewrite Hb.
Qed.

(** ** X6.  The class name is looked up before the confidence is tested:
    a detection whose class id is not in [yolo_model.names] makes
    [/shop-verify] answer 500 with that id as the message, whatever the
    detection's confidence, and the text reader is not called. *)
Theorem shop_verify_unnamed_class_is_500
    (request : Request) (d : gmap string PyVal) (image_data : PyVal)
    (img : option PixelGrid) (results : list (Results F))
    (pre post : list (Box F)) (b : Box F) (log log1 : list Call) :
  request_json request = Returns (PDict d) →
  d !! "image" = Some image_data → truthy image_data = true →
  decode_image E image_data log = (Returns img, log1) →
  yolo_model E img = Returns results →
  all_boxes results = pre ++ b :: post →
  (∀ b', b' ∈ pre → is_Some (yolo_names E !! f_int (cls b'))) →
  yolo_names E !! f_int (cls b) = None →
  shop_verify E request log
  = (Returns (ErrorMsg (pretty (f_int (cls b))), 500), log1 ++ [Call_yolo_model img]).
Proof.
  intros Hreq Hd Ht Hdecode Hyolo Hboxes Hpre Hb.
  rewrite (shop_verify_decodes E _ _ _ _ Hreq Hd Ht).
  refine (handler_raises _ (mkExn KeyError (pretty (f_int (cls b)))) _ _ _).
  rewrite (bind_returns _ _ _ _ _ Hdecode).
  unfold bind at 1, call at 1. rewrite Hyolo.
  apply bind_raises. by apply tag_results_unnamed with pre post.
Qed.

End TaggerMore.

(** ** More on the endpoints *)

Section EndpointsMore.
Context {F : Type} `{!Numeric F}.
Variable E : Env F.

Lemma calls_only_decode_image (P : Call → bool) (image_input : PyVal) :
  (∀ c, is_decoder_call c = true → P c = true) →
  calls_only P (decode_image E image_input).
Proof.
  intros HP. unfold decode_image.
  apply calls_only_try_except; [|intros e; apply calls_only_raise].
  apply calls_only_bind.
  { unfold strip_data_uri. destruct image_input; try apply calls_only_ret.
    destruct (str_contains "," s); [|apply calls_only_ret].
    destruct (str_split "," s !! 1%nat); [apply calls_only_ret|apply calls_only_raise]. }
  intros v. apply calls_only_bind.
  { destruct v; try apply calls_only_ret.
    apply calls_only_bind; [by apply calls_only_call, HP|intros b; apply calls_only_ret]. }
  intros img_bytes. apply calls_only_bind.
  { unfold np_frombuffer. destruct img_bytes; first [apply calls_only_ret|apply calls_only_raise]. }
  intros img_arr. apply calls_only_bind; [by apply calls_only_call, HP|].
  intros img. apply calls_only_ret.
Qed.

Lemma calls_only_crop_card (P : Call → bool) (image : option PixelGrid) :
  (∀ c, is_detector_call c = true → P c = true) →
  calls_only P (crop_card E image).
Proof.
  intros HP. unfold crop_card.
  apply calls_only_bind; [by apply calls_only_call, HP|]. intros results.
  destruct (scan_results results).1 as [[[[x1 y1] x2] y2]|]; [|apply calls_only_ret].
  apply calls_only_bind.
  - unfold image_shape. destruct image; [apply calls_only_ret|apply calls_only_raise].
  - intros [[g h] w]. apply calls_only_ret.
Qed.

Lemma calls_only_py_get (P : Call → bool) (data : PyVal) (key : string) :
  calls_only P (py_get data key).
Proof. unfold py_get. destruct data; first [apply calls_only_ret|apply calls_only_raise]. Qed.

(** ** X7.  Each endpoint calls only its own collaborators: [/verify-cnic]
    and [/shop-verify] never call the face model, and [/face-verify] never
    calls the detector or the text reader, whatever the request and whatever
    the outcome. *)
Theorem handlers_call_only_their_models (request : Request) :
  calls_only (λ c, is_decoder_call c || is_detector_call c || is_reader_call c)
             (verify_cnic E request) ∧
  calls_only (λ c, is_decoder_call c || is_detector_call c || is_reader_call c)
             (shop_verify E request) ∧
  calls_only (λ c, is_decoder_call c || is_face_call c) (face_verify E request).
Proof.
  split_and!.
  - apply calls_only_try_except; [|intros e; apply calls_only_ret].
    apply calls_only_bind; [apply calls_only_lift|]. intros data.
    apply calls_only_bind; [apply calls_only_py_get|]. intros image_data.
    destruct (negb (truthy image_data)); [apply calls_only_ret|].
    apply calls_only_bind.
    { apply calls_only_decode_image. by intros c ->. }
    intros img. apply calls_only_bind.
    { apply calls_only_crop_card. intros c ->. by rewrite orb_true_r. }
    intros cropped. apply calls_only_bind; [by apply calls_only_call|].
    intros text. apply calls_only_ret.
  - apply calls_only_try_except; [|intros e; apply calls_only_ret].
    apply calls_only_bind; [apply calls_only_lift|]. intros data.
    apply calls_only_bind; [apply calls_only_py_get|]. intros image_data.
    destruct (negb (truthy image_data)); [apply calls_only_ret|].
    apply calls_only_bind.
    { apply calls_only_decode_image. by intros c ->. }
    intros img. apply calls_only_bind; [by apply calls_only_call|].
    intros results. apply calls_only_bind.
    { apply calls_only_foldM. intros acc r. apply calls_only_foldM.
      intros acc' box. apply calls_only_lift. }
    intros detected. apply calls_only_bind; [by apply calls_only_call|].
    intros text. apply calls_only_ret.
  - apply calls_only_try_except; [|intros e; apply calls_only_ret].
    apply calls_only_bind; [apply calls_only_lift|]. intros data.
    apply calls_only_bind; [apply calls_only_py_get|]. intros img1_data.
    apply calls_only_bind; [apply calls_only_py_get|]. intros img2_data.
    destruct (negb (truthy img1_data) || negb (truthy img2_data)); [apply calls_only_ret|].
    apply calls_only_bind.
    { apply calls_only_decode_image. by intros c ->. }
    intros img1. apply calls_only_bind.
    { apply calls_only_decode_image. by intros c ->. }
    intros img2. apply calls_only_bind; [by apply calls_only_call|].
    intros result. apply calls_only_ret.
Qed.

(** How a handler's body can return: through the guard, or at its end. *)
Lemma verify_cnic_body_returns (request : Request) (r : Response F) (log log' : list Call) :
  verify_cnic_body E request log = (Returns r, log') →
  ∃ d, request_json request = Returns (PDict d) ∧
       ((truthy (default PNone (d !! "image")) = false ∧
         r = (ErrorMsg "No image provided", 400) ∧ log' = log) ∨
        (truthy (default PNone (d !! "image")) = true ∧
         ∃ text_results, r = (RawText text_results, 200))).
Proof.
  unfold verify_cnic_body. intros Hbody.
  apply bind_returns_inv in Hbody as (data & log1 & Hjson & Hbody).
  unfold lift in Hjson. injection Hjson as Hjson <-.
  apply bind_returns_inv in Hbody as (image_data & log1 & Hget & Hbody).
  destruct data as [| | | | | | |d]; try done.
  unfold py_get, ret in Hget. injection Hget as <- <-.
  exists d. split; [done|].
  destruct (truthy (default PNone (d !! "image"))); simpl in Hbody.
  - right. split; [done|].
    apply bind_returns_inv in Hbody as (img & log1 & _ & Hbody).
    apply bind_returns_inv in Hbody as (cropped & log2 & _ & Hbody).
    apply bind_returns_inv in Hbody as (text & log3 & _ & Hbody).
    unfold ret in Hbody. injection Hbody as <- _. by eexists.
  - left. unfold ret in Hbody. by injection Hbody as <- <-.
Qed.

Lemma shop_verify_body_returns (request : Request) (r : Response F) (log log' : list Call) :
  shop_verify_body E request log = (Returns r, log') →
  ∃ d, request_json request = Returns (PDict d) ∧
       ((truthy (default PNone (d !! "image")) = false ∧
         r = (ErrorMsg "No image provided", 400) ∧ log' = log) ∨
        (truthy (default PNone (d !! "image")) = true ∧
         ∃ detected_objects text_content,
           r = (ShopReport detected_objects text_content, 200) ∧ NoDup detected_objects)).
Proof.
  unfold shop_verify_body. intros Hbody.
  apply bind_returns_inv in Hbody as (data & log1 & Hjson & Hbody).
  unfold lift in Hjson. injection Hjson as Hjson <-.
  apply bind_returns_inv in Hbody as (image_data & log1 & Hget & Hbody).
  destruct data as [| | | | | | |d]; try done.
  unfold py_get, ret in Hget. injection Hget as <- <-.
  exists d. split; [done|].
  destruct (truthy (default PNone (d !! "image"))); simpl in Hbody.
  - right. split; [done|].
    apply bind_returns_inv in Hbody as (img & log1 & _ & Hbody).
    apply bind_returns_inv in Hbody as (results & log2 & _ & Hbody).
    apply bind_returns_inv in Hbody as (detected & log3 & _ & Hbody).
    apply bind_returns_inv in Hbody as (text & log4 & _ & Hbody).
    unfold ret in Hbody. injection Hbody as <- _. eexists _, _. split; [done|].
    unfold list_set. apply NoDup_elements.
  - left. unfold ret in Hbody. by injection Hbody as <- <-.
Qed.

Lemma face_verify_body_returns (request : Request) (r : Response F) (log log' : list Call) :
  face_verify_body E request log = (Returns r, log') →
  ∃ d, request_json request = Returns (PDict d) ∧
       (((truthy (default PNone (d !! "image1")) = false ∨
          truthy (default PNone (d !! "image2")) = false) ∧
         r = (ErrorMsg "image1 and image2 required", 400) ∧ log' = log) ∨
        (truthy (default PNone (d !! "image1")) = true ∧
         truthy (default PNone (d !! "image2")) = true ∧
         ∃ img1 img2 result,
           DeepFace_verify E img1 img2 = Returns result ∧
           r = (FaceVerdict (verified result) (distance result) (threshold result), 200))).
Proof.
  unfold face_verify_body. intros Hbody.
  apply bind_returns_inv in Hbody as (data & log1 & Hjson & Hbody).
  unfold lift in Hjson. injection Hjson as Hjson <-.
  apply bind_returns_inv in Hbody as (img1_data & log1 & Hget1 & Hbody).
  apply bind_returns_inv in Hbody as (img2_data & log2 & Hget2 & Hbody).
  destruct data as [| | | | | | |d]; try done.
  unfold py_get, ret in Hget1, Hget2. injection Hget1 as <- <-. injection Hget2 as <- <-.
  exists d. split; [done|].
  destruct (truthy (default PNone (d !! "image1"))) eqn:H1;
    destruct (truthy (default PNone (d !! "image2"))) eqn:H2; simpl in Hbody;
    try (left; unfold ret in Hbody; injection Hbody as <- <-; split_and!; by eauto).
  right. split_and!; [done|done|].
  apply bind_returns_inv in Hbody as (img1 & log3 & _ & Hbody).
  apply bind_returns_inv in Hbody as (img2 & log4 & _ & Hbody).
  apply bind_returns_inv in Hbody as (result & log5 & Hcall & Hbody).
  unfold call in Hcall. injection Hcall as Hcall _.
  unfold ret in Hbody. injection Hbody as <- _. by exists img1, img2, result.
Qed.

(** A handler returns what its body returns, or the 500 reply. *)
Lemma handler_returns_inv (body : M (Response F)) (r : Response F) (log log' : list Call) :
  try_except body (error_500 (F:=F)) log = (Returns r, log') →
  body log = (Returns r, log') ∨ ∃ e, body log = (Raises e, log') ∧ r = (ErrorMsg (exn_str e), 500).
Proof.
  unfold try_except, error_500, ret. destruct (body log) as [[r0|e] log1].
  - intros [= <- <-]. by left.
  - intros [= <- <-]. right. by exists e.
Qed.

(** ** X8.  A reply is never a mix of success and error: [/verify-cnic]
    answers 200 with a text list, 400 with its missing-image message, or 500
    with an error message, and nothing else; likewise [/shop-verify], whose
    200 reply lists labels without duplicates, and [/face-verify], whose 200
    reply carries exactly the three values the face model returned. *)
Theorem responses_are_well_formed (request : Request) (log : list Call) :
  (∀ r log', verify_cnic E request log = (Returns r, log') →
     (∃ raw_text, r = (RawText raw_text, 200)) ∨
     r = (ErrorMsg "No image provided", 400) ∨
     (∃ msg, r = (ErrorMsg msg, 500))) ∧
  (∀ r log', shop_verify E request log = (Returns r, log') →
     (∃ detected_objects text_content,
        r = (ShopReport detected_objects text_content, 200) ∧ NoDup detected_objects) ∨
     r = (ErrorMsg "No image provided", 400) ∨
     (∃ msg, r = (ErrorMsg msg, 500))) ∧
  (∀ r log', face_verify E request log = (Returns r, log') →
     (∃ img1 img2 result,
        DeepFace_verify E img1 img2 = Returns result ∧
        r = (FaceVerdict (verified result) (distance result) (threshold result), 200)) ∨
     r = (ErrorMsg "image1 and image2 required", 400) ∨
     (∃ msg, r = (ErrorMsg msg, 500))).
Proof.
  split_and!; intros r log' Hr;
    apply handler_returns_inv in Hr as [Hbody|(e & _ & ->)];
    try (right; right; by eexists).
  - apply verify_cnic_body_returns in Hbody as (d & _ & [(_ & -> & _)|(_ & text & ->)]).
    + right. by left.
    + left. by eexists.
  - apply shop_verify_body_returns in Hbody
      as (d & _ & [(_ & -> & _)|(_ & objs & text & -> & Hnodup)]).
    + right. by left.
    + left. by eexists _, _.
  - apply face_verify_body_returns in Hbody
      as (d & _ & [(_ & -> & _)|(_ & _ & img1 & img2 & result & Hface & ->)]).
    + right. by left.
    + left. by exists img1, img2, result.
Qed.

(** ** X9.  Status 400 is only ever the missing-input reply: when a handler
    answers 400, the body was a JSON object in which a required field was
    absent or falsy, and no decoder or model call was made for the request. *)
Theorem status_400_means_missing_field (request : Request) (log : list Call) :
  (∀ body log', verify_cnic E request log = (Returns (body, 400), log') →
     ∃ d, request_json request = Returns (PDict d) ∧
          truthy (default PNone (d !! "image")) = false ∧
          body = ErrorMsg "No image provided" ∧ log' = log) ∧
  (∀ body log', shop_verify E request log = (Returns (body, 400), log') →
     ∃ d, request_json request = Returns (PDict d) ∧
          truthy (default PNone (d !! "image")) = false ∧
          body = ErrorMsg "No image provided" ∧ log' = log) ∧
  (∀ body log', face_verify E request log = (Returns (body, 400), log') →
     ∃ d, request_json request = Returns (PDict d) ∧
          (truthy (default PNone (d !! "image1")) = false ∨
           truthy (default PNone (d !! "image2")) = false) ∧
          body = ErrorMsg "image1 and image2 required" ∧ log' = log).
Proof.
  split_and!; intros body log' Hr;
    apply handler_returns_inv in Hr as [Hbody|(e & _ & [=])].
  - apply verify_cnic_body_returns in Hbody
      as (d & Hjson & [(Hfalsy & [= ->] & ->)|(_ & text & [=])]).
    by exists d.
  - apply shop_verify_body_returns in Hbody
      as (d & Hjson & [(Hfalsy & [= ->] & ->)|(_ & objs & text & [=] & _)]).
    by exists d.
  - apply face_verify_body_returns in Hbody
      as (d & Hjson & [(Hfalsy & [= ->] & ->)|(_ & _ & img1 & img2 & result & _ & [=])]).
    by exists d.
Qed.

(** ** X10.  A request whose body is not a JSON object is answered with
    status 500, not 400, and nothing is decoded or sent to a model: when
    [request.json] raises, the reply carries that exception's text, and when
    the body parses to something other than an object (a list, a string, a
    number, [null]) it carries the text of the [AttributeError] for the
    missing [get]. *)
Theorem non_object_body_is_500 (request : Request) (log : list Call) :
  (∀ e, request_json request = Raises e →
        verify_cnic E request log = (Returns (ErrorMsg (exn_str e), 500), log) ∧
        shop_verify E request log = (Returns (ErrorMsg (exn_str e), 500), log) ∧
        face_verify E request log = (Returns (ErrorMsg (exn_str e), 500), log)) ∧
  (∀ v, request_json request = Returns v → (∀ d, v ≠ PDict d) →
        let msg := "'" +:+ type_name v +:+ "' object has no attribute 'get'" in
        verify_cnic E request log = (Returns (ErrorMsg msg, 500), log) ∧
        shop_verify E request log = (Returns (ErrorMsg msg, 500), log) ∧
        face_verify E request log = (Returns (ErrorMsg msg, 500), log)).
Proof.
  split.
  - intros e He. split_and!; apply handler_raises;
      unfold verify_cnic_body, shop_verify_body, face_verify_body;
      apply bind_raises; unfold lift; by rewrite He.
  - intros v Hv Hnot msg.
    assert (Hget : ∀ key, py_get v key log
                          = (Raises (mkExn AttributeError msg), log)).
    { intros key. destruct v; try done. by destruct (Hnot d). }
    split_and!;
      refine (handler_raises _ (mkExn AttributeError msg) _ _ _);
      unfold verify_cnic_body, shop_verify_body, face_verify_body;
      unfold bind at 1, lift at 1; rewrite Hv; apply bind_raises, Hget.
Qed.

(** A value that is neither text nor bytes is rejected before any call. *)
Lemma decode_image_non_buffer (v : PyVal) (log : list Call) :
  (∀ s, v ≠ PStr s) → (∀ b, v ≠ PBytes b) →
  decode_image E v log
  = (Raises (mkExn ValueError
               ("Invalid image input: a bytes-like object is required, not '"
                +:+ type_name v +:+ "'")), log).
Proof.
  intros Hstr Hbytes. unfold decode_image.
  destruct v; try done; [by destruct (Hstr s)|by destruct (Hbytes b)].
Qed.

(** ** X11.  An image field holding a truthy value that is not text (a
    number, [true], a non-empty list or object) is answered with status 500
    and the message "Invalid image input: a bytes-like object is required,
    not '<type>'", without any call to the base64 decoder, OpenCV or a
    model. *)
Theorem non_text_image_is_500
    (request : Request) (d : gmap string PyVal) (v : PyVal) (log : list Call) :
  request_json request = Returns (PDict d) →
  d !! "image" = Some v → truthy v = true →
  (∀ s, v ≠ PStr s) → (∀ b, v ≠ PBytes b) →
  let msg := "Invalid image input: a bytes-like object is required, not '"
             +:+ type_name v +:+ "'" in
  verify_cnic E request log = (Returns (ErrorMsg msg, 500), log) ∧
  shop_verify E request log = (Returns (ErrorMsg msg, 500), log).
Proof.
  intros Hreq Hd Ht Hstr Hbytes msg. split.
  - rewrite (verify_cnic_decodes E _ _ _ _ Hreq Hd Ht).
    refine (handler_raises _ (mkExn ValueError msg) _ _ _).
    apply bind_raises. by apply decode_image_non_buffer.
  - rewrite (shop_verify_decodes E _ _ _ _ Hreq Hd Ht).
    refine (handler_raises _ (mkExn ValueError msg) _ _ _).
    apply bind_raises. by apply decode_image_non_buffer.
Qed.

(** ** X12.  [/verify-cnic] reads text from the crop, not from the frame:
    when the image decodes and the detector reports a box of positive area,
    the text reader is called, after the detector, on the margin-extended
    slice around a largest box, and its text list is the 200 reply; when no
    box has positive area the text reader is called on the whole image. *)
Theorem verify_cnic_reads_text_from_crop
    (request : Request) (d : gmap string PyVal) (image_data : PyVal)
    (image : PixelGrid) (results : list (Results F)) (log log1 : list Call) :
  request_json request = Returns (PDict d) →
  d !! "image" = Some image_data → truthy image_data = true →
  decode_image E image_data log = (Returns (Some image), log1) →
  yolo_model E (Some image) = Returns results →
  ((∃ b, b ∈ all_boxes results ∧ fgt (box_area b) f_zero = true) →
   ∃ best bx1 by1 bx2 by2 crop,
     best ∈ all_boxes results ∧
     box_ints best = (bx1, by1, bx2, by2) ∧
     (∀ b, b ∈ all_boxes results → fgt (box_area b) (box_area best) = false) ∧
     crop = subgrid image
              (Z.max 0 (by1 - 10)) (Z.min (Z.of_nat (shape_h image)) (by2 + 10))
              (Z.max 0 (bx1 - 10)) (Z.min (Z.of_nat (shape_w image)) (bx2 + 10)) ∧
     ∀ text_results, readtext E (Some crop) = Returns text_results →
       verify_cnic E request log
       = (Returns (RawText text_results, 200),
          log1 ++ [Call_yolo_model (Some image); Call_readtext (Some crop)])) ∧
  ((∀ b, b ∈ all_boxes results → fgt (box_area b) f_zero = false) →
   ∀ text_results, readtext E (Some image) = Returns text_results →
     verify_cnic E request log
     = (Returns (RawText text_results, 200),
        log1 ++ [Call_yolo_model (Some image); Call_readtext (Some image)])).
Proof.
  intros Hreq Hd Ht Hdecode Hyolo. split.
  - intros Hpos.
    destruct (crop_card_selected E image results log1 Hyolo Hpos)
      as (best & bx1 & by1 & bx2 & by2 & Hbest & Hints & _ & Hmax & Hcrop).
    exists best, bx1, by1, bx2, by2. eexists. split_and!; [done|done|done|reflexivity|].
    intros text Hread. rewrite (verify_cnic_decodes E _ _ _ _ Hreq Hd Ht).
    apply try_except_returns. rewrite (bind_returns _ _ _ _ _ Hdecode).
    rewrite (bind_returns _ _ _ _ _ Hcrop). run_monad. rewrite Hread.
    by rewrite <- app_assoc.
  - intros Hall text Hread. rewrite (verify_cnic_decodes E _ _ _ _ Hreq Hd Ht).
    apply try_except_returns. rewrite (bind_returns _ _ _ _ _ Hdecode).
    rewrite (bind_returns _ _ _ _ _ (crop_card_fallback E _ _ _ Hyolo Hall)).
    run_monad. rewrite Hread. by rewrite <- app_assoc.
Qed.

(** ** X13.  [/face-verify] decodes [image1], then [image2], then calls the
    face model once on the two images in that order, and relays its match
    flag, distance and threshold unchanged in a 200 reply. *)
Theorem face_verify_relays_model_result
    (request : Request) (d : gmap string PyVal) (img1_data img2_data : PyVal)
    (img1 img2 : option PixelGrid) (result : FaceResult F) (log log1 log2 : list Call) :
  request_json request = Returns (PDict d) →
  d !! "image1" = Some img1_data → truthy img1_data = true →
  d !! "image2" = Some img2_data → truthy img2_data = true →
  decode_image E img1_data log = (Returns img1, log1) →
  decode_image E img2_data log1 = (Returns img2, log2) →
  DeepFace_verify E img1 img2 = Returns result →
  face_verify E request log
  = (Returns (FaceVerdict (verified result) (distance result) (threshold result), 200),
     log2 ++ [Call_DeepFace_verify img1 img2]).
Proof.
  intros Hreq Hd1 Ht1 Hd2 Ht2 H1 H2 Hface.
  rewrite (face_verify_decodes E _ _ _ _ _ Hreq Hd1 Ht1 Hd2 Ht2).
  apply try_except_returns. rewrite (bind_returns _ _ _ _ _ H1).
  rewrite (bind_returns _ _ _ _ _ H2). run_monad. by rewrite Hface.
Qed.

(** ** X14.  [/shop-verify] reads text from the full frame: whatever boxes
    the detector reports, the text reader is called on the decoded image
    itself, after the detector, and the 200 reply pairs that text with the
    de-duplicated labels of the detections above the threshold. *)
Theorem shop_verify_reads_text_from_full_frame
    (request : Request) (d : gmap string PyVal) (image_data : PyVal)
    (img : option PixelGrid) (results : list (Results F))
    (ocr_text : list string) (log log1 : list Call) :
  request_json request = Returns (PDict d) →
  d !! "image" = Some image_data → truthy image_data = true →
  decode_image E image_data log = (Returns img, log1) →
  yolo_model E img = Returns results →
  (∀ b, b ∈ all_boxes results → is_Some (yolo_names E !! f_int (cls b))) →
  readtext E img = Returns ocr_text →
  ∃ detected_objects,
    shop_verify E request log
    = (Returns (ShopReport detected_objects ocr_text, 200),
       log1 ++ [Call_yolo_model img; Call_readtext img]) ∧
    NoDup detected_objects ∧
    ∀ label, label ∈ detected_objects ↔
             ∃ b, b ∈ all_boxes results ∧
                  yolo_names E !! f_int (cls b) = Some label ∧
                  fgt (conf b) f_0_4 = true.
Proof.
  intros Hreq Hd Ht Hdecode Hyolo Hnamed Hread. eexists. split_and!.
  - by apply (shop_verify_report E request d image_data img results ocr_text log log1).
  - unfold list_set. apply NoDup_elements.
  - intros label. unfold list_set.
    rewrite elem_of_elements, elem_of_list_to_set, list_elem_of_omap.
    unfold box_label. split.
    + intros (b & Hb & Hlabel). exists b. by destruct (fgt (conf b) f_0_4).
    + intros (b & Hb & Hname & Hconf). exists b. by rewrite Hconf.
Qed.

End EndpointsMore.

(** ** Concrete runs of the further properties *)

(** X2 on a data URI of the 1 x 1 image. *)
Lemma decode_image_single_comma_data_uri_witness :
  let E := Sample.env [] in
  let s := "data:image/png;base64,SQEBECAw" in
  let buf := [Byte.x49; Byte.x01; Byte.x01; Byte.x10; Byte.x20; Byte.x30] in
  str_contains "," s = true ∧
  str_contains "," (after_first "," s) = false ∧
  b64decode E (after_first "," s) = Returns buf ∧
  imdecode E buf = Returns (Some Sample.pixel_image) ∧
  strip_data_uri (PStr s) [] = (Returns (PStr (after_first "," s)), []) ∧
  decode_image E (PStr s) []
  = (Returns (Some Sample.pixel_image),
     [] ++ [Call_b64decode (after_first "," s); Call_imdecode buf]).
Proof.
  intros E s buf.
  split; [reflexivity|]. split; [reflexivity|].
  split; [vm_compute; reflexivity|]. split; [vm_compute; reflexivity|].
  exact (decode_image_single_comma_data_uri E s buf (Some Sample.pixel_image) []
           eq_refl eq_refl ltac:(vm_compute; reflexivity) ltac:(vm_compute; reflexivity)).
Defined.

(** X3 on two boxes of the same area: the first one is cropped. *)
Lemma crop_card_crops_first_largest_box_witness :
  let first := Sample.box 0 0 10 10 0 (1 # 2) in
  let second := Sample.box 20 20 30 30 2 (9 # 10) in
  let results := [mkResults [first; second]] in
  let E := Sample.env results in
  yolo_model E (Some Sample.image) = Returns results ∧
  all_boxes results = [] ++ first :: [second] ∧
  box_ints first = (0, 0, 10, 10) ∧
  fgt (box_area first) f_zero = true ∧
  fgt (box_area second) (box_area first) = false ∧
  crop_card E (Some Sample.image) []
  = (Returns (Some (subgrid Sample.image
                      (Z.max 0 (0 - 10)) (Z.min (Z.of_nat (shape_h Sample.image)) (10 + 10))
                      (Z.max 0 (0 - 10)) (Z.min (Z.of_nat (shape_w Sample.image)) (10 + 10)))),
     [] ++ [Call_yolo_model (Some Sample.image)]).
Proof.
  intros first second results E.
  split; [reflexivity|]. split; [reflexivity|]. split; [reflexivity|].
  split; [reflexivity|]. split; [reflexivity|].
  refine (crop_card_crops_first_largest_box E Sample.image results [] [second] first
            0 0 10 10 [] eq_refl eq_refl eq_refl eq_refl _ _).
  - intros b Hb. by apply elem_of_nil in Hb.
  - intros b Hb. apply list_elem_of_singleton in Hb. subst b. reflexivity.
Defined.

(** X4 on the 40 x 50 image and a box from (5, 5) to (30, 25). *)
Lemma crop_card_geometry_witness :
  let large := Sample.box 5 5 30 25 73 (9 # 10) in
  let results := [mkResults [large]] in
  let E := Sample.env results in
  yolo_model E (Some Sample.image) = Returns results ∧
  (∃ b, b ∈ all_boxes results ∧ fgt (box_area b) f_zero = true) ∧
  ∃ crop, crop_card E (Some Sample.image) []
          = (Returns (Some crop), [] ++ [Call_yolo_model (Some Sample.image)]).
Proof.
  intros large results E.
  assert (Hpos : ∃ b, b ∈ all_boxes results ∧ fgt (box_area b) f_zero = true).
  { exists large. split; [apply list_elem_of_here|reflexivity]. }
  split; [reflexivity|]. split; [exact Hpos|].
  destruct (crop_card_geometry E Sample.image results [] eq_refl Hpos)
    as (best & bx1 & by1 & bx2 & by2 & crop & _ & _ & Hcrop & _).
  exists crop. exact Hcrop.
Defined.

(** The run behind the previous lemma: a 35 x 40 crop whose pixel (2, 3)
    is pixel (2, 3) of the image, the crop starting at the origin. *)
Lemma crop_card_geometry_run :
  let crop := subgrid Sample.image 0 35 0 40 in
  shape_h crop = 35%nat ∧ shape_w crop = 40%nat ∧
  pixel_at crop 2 3 = Some (Byte.x02, Byte.x03, Byte.x00) ∧
  pixel_at Sample.image 2 3 = Some (Byte.x02, Byte.x03, Byte.x00).
Proof. split_and!; vm_compute; reflexivity. Qed.

(** X5 with a detector that reports a box for the [None] image. *)
Lemma crop_card_on_None_witness :
  let results := [mkResults [Sample.box 5 5 30 25 0 (9 # 10)]] in
  let E := Sample.env results in
  yolo_model E None = Returns results ∧
  (∃ b, b ∈ all_boxes results ∧ fgt (box_area b) f_zero = true) ∧
  crop_card E None []
  = (Raises (mkExn AttributeError "'NoneType' object has no attribute 'shape'"),
     [] ++ [Call_yolo_model None]) ∧
  crop_card (Sample.env []) None [] = (Returns None, [] ++ [Call_yolo_model None]).
Proof.
  intros results E.
  assert (Hpos : ∃ b, b ∈ all_boxes results ∧ fgt (box_area b) f_zero = true).
  { eexists. split; [apply list_elem_of_here|reflexivity]. }
  split; [reflexivity|]. split; [exact Hpos|]. split.
  - exact (proj1 (crop_card_on_None E results [] eq_refl) Hpos).
  - refine (proj2 (crop_card_on_None (Sample.env []) [] [] eq_refl) _).
    intros b Hb. by apply elem_of_nil in Hb.
Defined.

(** X6 with a detection of class 5, which has no name, at confidence 0.1. *)
Lemma shop_verify_unnamed_class_is_500_witness :
  let b := Sample.box 1 1 5 5 5 (1 # 10) in
  let results := [mkResults [Sample.box 1 1 5 5 0 (9 # 10); b]] in
  let E := Sample.env results in
  let fields := [("image", PStr Sample.pixel_b64)] in
  fgt (conf b) f_0_4 = false ∧
  yolo_names E !! f_int (cls b) = None ∧
  ∃ log1, shop_verify E (Sample.post fields) []
          = (Returns (ErrorMsg (pretty (f_int (cls b))), 500),
             log1 ++ [Call_yolo_model (Some Sample.pixel_image)]).
Proof.
  intros b results E fields.
  split; [reflexivity|]. split; [vm_compute; reflexivity|].
  eexists.
  refine (shop_verify_unnamed_class_is_500 E (Sample.post fields) (list_to_map fields)
            (PStr Sample.pixel_b64) (Some Sample.pixel_image) results
            [Sample.box 1 1 5 5 0 (9 # 10)] [] b [] _ eq_refl
            ltac:(vm_compute; reflexivity) eq_refl
            ltac:(vm_compute; reflexivity) eq_refl eq_refl _
            ltac:(vm_compute; reflexivity)).
  intros b' Hb'. apply list_elem_of_singleton in Hb'. subst b'.
  eexists. vm_compute. reflexivity.
Defined.

(** X8 on a request that succeeds on all three endpoints. *)
Lemma responses_are_well_formed_witness :
  let E := Sample.env [mkResults [Sample.box 1 1 5 5 0 (9 # 10)]] in
  let request := Sample.post [("image", PStr Sample.pixel_b64);
                              ("image1", PStr Sample.pixel_b64);
                              ("image2", PStr Sample.pixel_b64)] in
  ((∃ raw_text, (verify_cnic E request []).1 = Returns (RawText raw_text, 200)) ∨
   (verify_cnic E request []).1 = Returns (ErrorMsg "No image provided", 400) ∨
   (∃ msg, (verify_cnic E request []).1 = Returns (ErrorMsg msg, 500))) ∧
  ((∃ detected_objects text_content,
      (shop_verify E request []).1 = Returns (ShopReport detected_objects text_content, 200)) ∨
   (shop_verify E request []).1 = Returns (ErrorMsg "No image provided", 400) ∨
   (∃ msg, (shop_verify E request []).1 = Returns (ErrorMsg msg, 500))) ∧
  ((∃ v dist thr, (face_verify E request []).1 = Returns (FaceVerdict v dist thr, 200)) ∨
   (face_verify E request []).1 = Returns (ErrorMsg "image1 and image2 required", 400) ∨
   (∃ msg, (face_verify E request []).1 = Returns (ErrorMsg msg, 500))).
Proof.
  intros E request.
  destruct (responses_are_well_formed E request []) as (Hcnic & Hshop & Hface).
  split_and!.
  - destruct (verify_cnic E request []) as [[r|e] log'] eqn:Hrun; [|vm_compute in Hrun; discriminate].
    destruct (Hcnic r log' eq_refl) as [[t ->]|[->|[m ->]]]; simpl; eauto.
  - destruct (shop_verify E request []) as [[r|e] log'] eqn:Hrun; [|vm_compute in Hrun; discriminate].
    destruct (Hshop r log' eq_refl) as [(o & t & -> & _)|[->|[m ->]]]; simpl; eauto.
  - destruct (face_verify E request []) as [[r|e] log'] eqn:Hrun; [|vm_compute in Hrun; discriminate].
    destruct (Hface r log' eq_refl) as [(i1 & i2 & res & _ & ->)|[->|[m ->]]]; simpl; eauto 6.
Defined.

(** X9 on a request without any field. *)
Lemma status_400_means_missing_field_witness :
  let E := Sample.env [] in
  let request := Sample.post [] in
  verify_cnic E request [] = (Returns (ErrorMsg "No image provided", 400), []) ∧
  face_verify E request [] = (Returns (ErrorMsg "image1 and image2 required", 400), []) ∧
  (∃ d, request_json request = Returns (PDict d) ∧
        truthy (default PNone (d !! "image")) = false) ∧
  (∃ d, request_json request = Returns (PDict d) ∧
        (truthy (default PNone (d !! "image1")) = false ∨
         truthy (default PNone (d !! "image2")) = false)).
Proof.
  intros E request.
  assert (Hcnic : verify_cnic E request [] = (Returns (ErrorMsg "No image provided", 400), []))
    by (vm_compute; reflexivity).
  assert (Hface : face_verify E request []
                  = (Returns (ErrorMsg "image1 and image2 required", 400), []))
    by (vm_compute; reflexivity).
  destruct (status_400_means_missing_field E request []) as (H1 & _ & H3).
  split; [exact Hcnic|]. split; [exact Hface|]. split.
  - destruct (H1 _ _ Hcnic) as (d & Hjson & Hfalsy & _). exists d. by split.
  - destruct (H3 _ _ Hface) as (d & Hjson & Hfalsy & _). exists d. by split.
Defined.

(** X10 on a request that is not JSON and on one whose body is a list. *)
Lemma non_object_body_is_500_witness :
  let E := Sample.env [] in
  let unsupported := mkExn HTTPException "415 Unsupported Media Type" in
  let not_json := mkRequest (Raises unsupported) in
  let a_list := mkRequest (Returns (PList [PStr Sample.pixel_b64])) in
  request_json not_json = Raises unsupported ∧
  request_json a_list = Returns (PList [PStr Sample.pixel_b64]) ∧
  verify_cnic E not_json [] = (Returns (ErrorMsg "415 Unsupported Media Type", 500), []) ∧
  face_verify E a_list []
  = (Returns (ErrorMsg "'list' object has no attribute 'get'", 500), []).
Proof.
  intros E unsupported not_json a_list.
  split; [reflexivity|]. split; [reflexivity|]. split.
  - exact (proj1 (proj1 (non_object_body_is_500 E not_json []) unsupported eq_refl)).
  - refine (proj2 (proj2 (proj2 (non_object_body_is_500 E a_list [])
                            (PList [PStr Sample.pixel_b64]) eq_refl _))).
    intros d. discriminate.
Defined.

(** X11 on a request whose [image] is the number 5. *)
Lemma non_text_image_is_500_witness :
  let E := Sample.env [] in
  let fields := [("image", PInt 5)] in
  request_json (Sample.post fields) = Returns (PDict (list_to_map fields)) ∧
  (list_to_map fields : gmap string PyVal) !! "image" = Some (PInt 5) ∧
  truthy (PInt 5) = true ∧
  verify_cnic E (Sample.post fields) []
  = (Returns (ErrorMsg "Invalid image input: a bytes-like object is required, not 'int'",
              500), []) ∧
  shop_verify E (Sample.post fields) []
  = (Returns (ErrorMsg "Invalid image input: a bytes-like object is required, not 'int'",
              500), []).
Proof.
  intros E fields.
  assert (Hd : (list_to_map fields : gmap string PyVal) !! "image" = Some (PInt 5))
    by (vm_compute; reflexivity).
  split; [reflexivity|]. split; [exact Hd|]. split; [reflexivity|].
  refine (non_text_image_is_500 E (Sample.post fields) (list_to_map fields) (PInt 5) []
            eq_refl Hd eq_refl _ _); intros x; discriminate.
Defined.

(** X12 on the base64 text of the 1 x 1 image, with one box and with none. *)
Lemma verify_cnic_reads_text_from_crop_witness :
  let results := [mkResults [Sample.box 0 0 1 1 0 (9 # 10)]] in
  let fields := [("image", PStr Sample.pixel_b64)] in
  let text := ["PAKISTAN"; "National Identity Card"] in
  (∃ b, b ∈ all_boxes results ∧ fgt (box_area b) f_zero = true) ∧
  (∃ crop log', verify_cnic (Sample.env results) (Sample.post fields) []
                = (Returns (RawText text, 200),
                   log' ++ [Call_yolo_model (Some Sample.pixel_image);
                            Call_readtext (Some crop)])) ∧
  (∃ log', verify_cnic (Sample.env []) (Sample.post fields) []
           = (Returns (RawText text, 200),
              log' ++ [Call_yolo_model (Some Sample.pixel_image);
                       Call_readtext (Some Sample.pixel_image)])).
Proof.
  intros results fields text.
  assert (Hpos : ∃ b, b ∈ all_boxes results ∧ fgt (box_area b) f_zero = true).
  { eexists. split; [apply list_elem_of_here|reflexivity]. }
  split; [exact Hpos|]. split.
  - destruct (proj1 (verify_cnic_reads_text_from_crop
                       (Sample.env results) (Sample.post fields) (list_to_map fields)
                       (PStr Sample.pixel_b64) Sample.pixel_image results [] _ eq_refl
                       ltac:(vm_compute; reflexivity) eq_refl
                       ltac:(vm_compute; reflexivity) eq_refl) Hpos)
      as (best & bx1 & by1 & bx2 & by2 & crop & _ & _ & _ & _ & Hrun).
    eexists crop, _. exact (Hrun text eq_refl).
  - eexists.
    refine (proj2 (verify_cnic_reads_text_from_crop
                     (Sample.env []) (Sample.post fields) (list_to_map fields)
                     (PStr Sample.pixel_b64) Sample.pixel_image [] [] _ eq_refl
                     ltac:(vm_compute; reflexivity) eq_refl
                     ltac:(vm_compute; reflexivity) eq_refl) _ text eq_refl).
    intros b Hb. by apply elem_of_nil in Hb.
Defined.

(** X13 on two copies of the 1 x 1 image. *)
Lemma face_verify_relays_model_result_witness :
  let E := Sample.env [] in
  let fields := [("image1", PStr Sample.pixel_b64); ("image2", PStr Sample.pixel_b64)] in
  DeepFace_verify E (Some Sample.pixel_image) (Some Sample.pixel_image)
  = Returns (mkFace true (1 # 4)%Q (17 # 25)%Q) ∧
  ∃ log2, face_verify E (Sample.post fields) []
          = (Returns (FaceVerdict true (1 # 4)%Q (17 # 25)%Q, 200),
             log2 ++ [Call_DeepFace_verify (Some Sample.pixel_image)
                                           (Some Sample.pixel_image)]).
Proof.
  intros E fields. split; [reflexivity|]. eexists.
  exact (face_verify_relays_model_result E (Sample.post fields) (list_to_map fields)
           (PStr Sample.pixel_b64) (PStr Sample.pixel_b64)
           (Some Sample.pixel_image) (Some Sample.pixel_image)
           (mkFace true (1 # 4)%Q (17 # 25)%Q) [] _ _ eq_refl
           ltac:(vm_compute; reflexivity) eq_refl
           ltac:(vm_compute; reflexivity) eq_refl
           ltac:(vm_compute; reflexivity) ltac:(vm_compute; reflexivity) eq_refl).
Defined.

(** X14 on the 1 x 1 image with a person at 0.9 and a book at 0.3. *)
Lemma shop_verify_reads_text_from_full_frame_witness :
  let results := [mkResults [Sample.box 0 0 1 1 0 (9 # 10); Sample.box 0 0 1 1 73 (3 # 10)]] in
  let E := Sample.env results in
  let fields := [("image", PStr Sample.pixel_b64)] in
  (∀ b, b ∈ all_boxes results → is_Some (yolo_names E !! f_int (cls b))) ∧
  ∃ detected_objects log1,
    shop_verify E (Sample.post fields) []
    = (Returns (ShopReport detected_objects ["PAKISTAN"; "National Identity Card"], 200),
       log1 ++ [Call_yolo_model (Some Sample.pixel_image);
                Call_readtext (Some Sample.pixel_image)]) ∧
    NoDup detected_objects.
Proof.
  intros results E fields.
  assert (Hnamed : ∀ b, b ∈ all_boxes results → is_Some (yolo_names E !! f_int (cls b))).
  { apply Forall_forall. repeat constructor; eexists; vm_compute; reflexivity. }
  split; [exact Hnamed|].
  destruct (shop_verify_reads_text_from_full_frame E (Sample.post fields)
              (list_to_map fields) (PStr Sample.pixel_b64) (Some Sample.pixel_image)
              results ["PAKISTAN"; "National Identity Card"] [] _ eq_refl
              ltac:(vm_compute; reflexivity) eq_refl
              ltac:(vm_compute; reflexivity) eq_refl Hnamed eq_refl)
    as (detected & Hrun & Hnodup & _).
  eexists detected, _. split; [exact Hrun|exact Hnodup].
Defined.
